(** * Template editor and proxy handlers: a shallow embedding

    The development follows the TypeScript sources of the front end:

    - the proxy route handlers ([GET], [POST]) that forward one request to
      the backend with axios and answer with the backend's body or with a
      fixed error object;
    - the [TemplateManager] component: its React state, the event handlers
      closed over one render of that state, and the section objects the
      handlers share through the JavaScript heap.

    Strings are UTF-8 byte strings, section [order] values are integers, and
    the arrays are the ones the interfaces [Section] and [Template] type. *)

From Stdlib Require Import Ascii ZArith Lia.
From stdpp Require Import base list strings pretty.

Open Scope string_scope.
Open Scope list_scope.

(** ** JavaScript values used by the handlers *)

(** Truthiness of an optional string: [undefined] and the empty string are
    falsy. *)
Definition truthy_str (o : option string) : bool :=
  match o with
  | Some s => negb (String.eqb s "")
  | None => false
  end.

(** Truthiness of an optional boolean. *)
Definition truthy_bool (o : option bool) : bool :=
  match o with
  | Some b => b
  | None => false
  end.

(** [a || d] on strings. *)
Definition str_or (a : option string) (d : string) : string :=
  match a with
  | Some s => if String.eqb s "" then d else s
  | None => d
  end.

(** [a !== undefined ? a : d]. *)
Definition defined_or {A : Type} (a : option A) (d : A) : A :=
  match a with
  | Some v => v
  | None => d
  end.

(** [s.startsWith(p)]. *)
Definition startsWith (s p : string) : bool := String.prefix p s.

(** [String.prototype.trim] removes the white space and line terminators
    of ECMAScript at both ends.  Strings are UTF-8 here: the characters of
    one byte are tab, line feed, vertical tab, form feed, carriage return
    and space. *)
Definition is_white_space (a : ascii) : bool :=
  let n := nat_of_ascii a in
  (n =? 9)%nat || (n =? 10)%nat || (n =? 11)%nat || (n =? 12)%nat
  || (n =? 13)%nat || (n =? 32)%nat.

(** Two bytes: U+00A0. *)
Definition is_white_space2 (a b : ascii) : bool :=
  (nat_of_ascii a =? 194)%nat && (nat_of_ascii b =? 160)%nat.

(** Three bytes: U+1680, U+2000 to U+200A, U+2028, U+2029, U+202F, U+205F,
    U+3000 and U+FEFF. *)
Definition is_white_space3 (a b c : ascii) : bool :=
  let x := nat_of_ascii a in
  let y := nat_of_ascii b in
  let z := nat_of_ascii c in
  ((x =? 225) && (y =? 154) && (z =? 128))%nat
  || ((x =? 226) && (y =? 128)
      && (((128 <=? z) && (z <=? 138)) || (z =? 168) || (z =? 169) || (z =? 175)))%nat
  || ((x =? 226) && (y =? 129) && (z =? 159))%nat
  || ((x =? 227) && (y =? 128) && (z =? 128))%nat
  || ((x =? 239) && (y =? 187) && (z =? 191))%nat.

Fixpoint trim_start (s : string) : string :=
  match s with
  | String a s1 =>
      if is_white_space a then trim_start s1
      else
        match s1 with
        | String b s2 =>
            if is_white_space2 a b then trim_start s2
            else
              match s2 with
              | String c s3 => if is_white_space3 a b c then trim_start s3 else s
              | EmptyString => s
              end
        | EmptyString => s
        end
  | EmptyString => EmptyString
  end.

(** The end is dropped from the first position after which only white
    space follows. *)
Fixpoint trim_end (s : string) : string :=
  match s with
  | String a s' =>
      match trim_start s with
      | EmptyString => EmptyString
      | _ => String a (trim_end s')
      end
  | EmptyString => EmptyString
  end.

Definition trim (s : string) : string := trim_end (trim_start s).

(** The message V8 gives to the [TypeError] of a property read on
    [undefined]. *)
Definition TypeError_undefined (prop : string) : string :=
  "Cannot read properties of undefined (reading '" +:+ prop +:+ "')".

(** ** Data model *)

(** [interface Section].  A field is [None] when the object lacks it
    ([undefined]); [handleSave] tests for exactly that. *)
Record SectionObj := mkSection {
  sec_id : option string;
  sec_name : option string;
  sec_description : option string;
  sec_required : option bool;
  sec_default_enabled : option bool;
  sec_order : option Z;
  sec_rag_query_template : option string;
  sec_prompt_template : option string
}.

(** The object [{}]. *)
Definition empty_object : SectionObj :=
  mkSection None None None None None None None None.

(** References to section objects in the heap: positions in it. *)
Abbreviation loc := nat (only parsing).

(** [interface Template], as it lives in memory: the [sections] array holds
    references to section objects.  [is_custom] records the truthiness of
    the field, the only thing the component reads of it. *)
Record Template := mkTemplate {
  tpl_id : option string;
  tpl_name : string;
  tpl_description : string;
  tpl_sections : list loc;
  tpl_is_default : bool;
  tpl_is_custom : bool
}.

(** A template as JSON text carries it: sections by value. *)
Record TemplateData := mkTemplateData {
  td_id : option string;
  td_name : string;
  td_description : string;
  td_sections : list SectionObj;
  td_is_default : bool;
  td_is_custom : bool
}.

(** [{...t, sections: ls}]. *)
Definition with_sections (t : Template) (ls : list loc) : Template :=
  mkTemplate (tpl_id t) (tpl_name t) (tpl_description t) ls
             (tpl_is_default t) (tpl_is_custom t).

(** The body of the save request:
    [{name, description, sections, is_default}]. *)
Record SaveBody := mkSaveBody {
  body_name : string;
  body_description : string;
  body_sections : list SectionObj;
  body_is_default : bool
}.

(** ** React state of [TemplateManager] *)

Record State := mkState {
  templates : list Template;
  activeTemplate : option Template;
  editedTemplate : option Template;
  isLoading : bool;
  isSaving : bool;
  isDeleting : bool;
  error : option string;
  success : option string;
  showCreateDialog : bool;
  newTemplateName : string;
  newTemplateDescription : string;
  baseTemplateId : string
}.

(** The state of the first render. *)
Definition initial_state : State :=
  mkState [] None None true false false None None false "" "" "".

(** ** Observable effects *)

Inductive Variant := VariantDefault | VariantDestructive.

Inductive Method := GET_ | POST_ | PUT_ | DELETE_.

Inductive Event :=
| Toast (title description : string) (variant : Variant)
| Fetch (method : Method) (url : string) (body : option SaveBody).

(** What one [fetch] call meets: a rejected promise (network failure) or a
    response with a status, a text and a body that parses to a [A] or makes
    [response.json()] throw with a message. *)
Record Response (A : Type) := mkResponse {
  resp_status : nat;
  resp_text : option string;
  resp_json : string + A
}.
Arguments mkResponse {A} _ _ _.
Arguments resp_status {A} _.
Arguments resp_text {A} _.
Arguments resp_json {A} _.

Inductive FetchResult (A : Type) :=
| NetworkError (msg : string)
| Responded (r : Response A).
Arguments NetworkError {A} _.
Arguments Responded {A} _.

(** [response.ok]. *)
Definition resp_ok {A : Type} (r : Response A) : bool :=
  (200 <=? resp_status r)%nat && (resp_status r <=? 299)%nat.

(** ** The world a handler runs in, and the handler monad *)

(** The pending React state, the heap of section objects and the effects
    produced so far (oldest first). *)
Record World := mkWorld {
  st : State;
  heap : list SectionObj;
  log : list Event
}.

(** A handler step returns a value, throws a JavaScript exception with a
    message, or leaves the typed model ([Untyped]): a reference to no
    object, which JavaScript cannot build, or an array with holes, which
    [Section[]] does not type. *)
Inductive Res (A : Type) :=
| Val (a : A)
| Exn (msg : string)
| Untyped.
Arguments Val {A} _.
Arguments Exn {A} _.
Arguments Untyped {A}.

Definition M (A : Type) : Type := World -> Res A * World.

Definition ret {A : Type} (a : A) : M A := fun w => (Val a, w).

Definition bind {A B : Type} (m : M A) (k : A -> M B) : M B :=
  fun w =>
    match m w with
    | (Val a, w') => k a w'
    | (Exn e, w') => (Exn e, w')
    | (Untyped, w') => (Untyped, w')
    end.

Declare Scope handler_scope.
Delimit Scope handler_scope with handler.
Bind Scope handler_scope with M.

Notation "'let*' x ':=' m 'in' k" := (bind m (fun x => k))
  (at level 10, x name, m at level 100, k at level 200) : handler_scope.
Notation "m ';;' k" := (bind m (fun _ => k))
  (at level 100, k at level 200, right associativity) : handler_scope.

Open Scope handler_scope.

Definition throw {A : Type} (msg : string) : M A := fun w => (Exn msg, w).

Definition untyped {A : Type} : M A := fun w => (Untyped, w).

(** [try { body } catch (err) { handler }]. *)
Definition try_catch {A : Type} (body : M A) (handler : string -> M A) : M A :=
  fun w =>
    match body w with
    | (Exn e, w') => handler e w'
    | r => r
    end.

(** [try { body } finally { fin }]. *)
Definition try_finally {A : Type} (body : M A) (fin : M unit) : M A :=
  fun w =>
    match body w with
    | (Untyped, w') => (Untyped, w')
    | (r, w') =>
        match fin w' with
        | (Val _, w'') => (r, w'')
        | (Exn e, w'') => (Exn e, w'')
        | (Untyped, w'') => (Untyped, w'')
        end
    end.

(** *** State setters

    [upd_X v s] is the state [s] with [X] set to [v]; [setX v] queues it. *)

Definition modify (f : State -> State) : M unit :=
  fun w => (Val tt, mkWorld (f (st w)) (heap w) (log w)).

Definition upd_Templates (v : list Template) (s : State) : State :=
  mkState v (activeTemplate s) (editedTemplate s) (isLoading s)
    (isSaving s) (isDeleting s) (error s) (success s) (showCreateDialog s)
    (newTemplateName s) (newTemplateDescription s) (baseTemplateId s).

Definition setTemplates (v : list Template) : M unit := modify (upd_Templates v).

Definition upd_ActiveTemplate (v : option Template) (s : State) : State :=
  mkState (templates s) v (editedTemplate s) (isLoading s)
    (isSaving s) (isDeleting s) (error s) (success s) (showCreateDialog s)
    (newTemplateName s) (newTemplateDescription s) (baseTemplateId s).

Definition setActiveTemplate (v : option Template) : M unit := modify (upd_ActiveTemplate v).

Definition upd_EditedTemplate (v : option Template) (s : State) : State :=
  mkState (templates s) (activeTemplate s) v (isLoading s)
    (isSaving s) (isDeleting s) (error s) (success s) (showCreateDialog s)
    (newTemplateName s) (newTemplateDescription s) (baseTemplateId s).

Definition setEditedTemplate (v : option Template) : M unit := modify (upd_EditedTemplate v).

Definition upd_IsLoading (v : bool) (s : State) : State :=
  mkState (templates s) (activeTemplate s) (editedTemplate s) v
    (isSaving s) (isDeleting s) (error s) (success s) (showCreateDialog s)
    (newTemplateName s) (newTemplateDescription s) (baseTemplateId s).

Definition setIsLoading (v : bool) : M unit := modify (upd_IsLoading v).

Definition upd_IsSaving (v : bool) (s : State) : State :=
  mkState (templates s) (activeTemplate s) (editedTemplate s)
    (isLoading s) v (isDeleting s) (error s) (success s) (showCreateDialog s)
    (newTemplateName s) (newTemplateDescription s) (baseTemplateId s).

Definition setIsSaving (v : bool) : M unit := modify (upd_IsSaving v).

Definition upd_IsDeleting (v : bool) (s : State) : State :=
  mkState (templates s) (activeTemplate s) (editedTemplate s)
    (isLoading s) (isSaving s) v (error s) (success s) (showCreateDialog s)
    (newTemplateName s) (newTemplateDescription s) (baseTemplateId s).

Definition setIsDeleting (v : bool) : M unit := modify (upd_IsDeleting v).

Definition upd_Error (v : option string) (s : State) : State :=
  mkState (templates s) (activeTemplate s) (editedTemplate s)
    (isLoading s) (isSaving s) (isDeleting s) v (success s) (showCreateDialog s)
    (newTemplateName s) (newTemplateDescription s) (baseTemplateId s).

Definition setError (v : option string) : M unit := modify (upd_Error v).

Definition upd_Success (v : option string) (s : State) : State :=
  mkState (templates s) (activeTemplate s) (editedTemplate s)
    (isLoading s) (isSaving s) (isDeleting s) (error s) v (showCreateDialog s)
    (newTemplateName s) (newTemplateDescription s) (baseTemplateId s).

Definition setSuccess (v : option string) : M unit := modify (upd_Success v).

Definition upd_ShowCreateDialog (v : bool) (s : State) : State :=
  mkState (templates s) (activeTemplate s) (editedTemplate s)
    (isLoading s) (isSaving s) (isDeleting s) (error s) (success s) v
    (newTemplateName s) (newTemplateDescription s) (baseTemplateId s).

Definition setShowCreateDialog (v : bool) : M unit := modify (upd_ShowCreateDialog v).

Definition upd_NewTemplateName (v : string) (s : State) : State :=
  mkState (templates s) (activeTemplate s) (editedTemplate s)
    (isLoading s) (isSaving s) (isDeleting s) (error s) (success s)
    (showCreateDialog s) v (newTemplateDescription s) (baseTemplateId s).

Definition setNewTemplateName (v : string) : M unit := modify (upd_NewTemplateName v).

Definition upd_NewTemplateDescription (v : string) (s : State) : State :=
  mkState (templates s) (activeTemplate s) (editedTemplate s)
    (isLoading s) (isSaving s) (isDeleting s) (error s) (success s)
    (showCreateDialog s) (newTemplateName s) v (baseTemplateId s).

Definition setNewTemplateDescription (v : string) : M unit := modify (upd_NewTemplateDescription v).

Definition upd_BaseTemplateId (v : string) (s : State) : State :=
  mkState (templates s) (activeTemplate s) (editedTemplate s)
    (isLoading s) (isSaving s) (isDeleting s) (error s) (success s)
    (showCreateDialog s) (newTemplateName s) (newTemplateDescription s) v.

Definition setBaseTemplateId (v : string) : M unit := modify (upd_BaseTemplateId v).

(** *** Effects *)

Definition emit (e : Event) : M unit :=
  fun w => (Val tt, mkWorld (st w) (heap w) (log w ++ [e])).

Definition toast (title description : string) (variant : Variant) : M unit :=
  emit (Toast title description variant).

(** [await fetch(url, {method, body})]: the call is observed, then the
    promise rejects or resolves with the response. *)
Definition fetch {A : Type} (m : Method) (url : string) (body : option SaveBody)
    (r : FetchResult A) : M (Response A) :=
  emit (Fetch m url body);;
  match r with
  | NetworkError msg => throw msg
  | Responded resp => ret resp
  end.

(** [await response.json()]. *)
Definition json {A : Type} (r : Response A) : M A :=
  match resp_json r with
  | inl msg => throw msg
  | inr a => ret a
  end.

(** *** Heap *)

(** A new object. *)
Definition alloc (s : SectionObj) : M loc :=
  fun w => (Val (length (heap w)), mkWorld (st w) (heap w ++ [s]) (log w)).

(** Reading through a reference. *)
Definition deref (l : loc) : M SectionObj :=
  fun w =>
    match heap w !! l with
    | Some s => (Val s, w)
    | None => (Untyped, w)
    end.

(** The object [s] once [s.order = v] has run. *)
Definition with_order (s : SectionObj) (v : Z) : SectionObj :=
  mkSection (sec_id s) (sec_name s) (sec_description s) (sec_required s)
    (sec_default_enabled s) (Some v) (sec_rag_query_template s)
    (sec_prompt_template s).

(** [section.order = v], in place. *)
Definition set_order (l : loc) (v : Z) : M unit :=
  fun w =>
    match heap w !! l with
    | Some s => (Val tt, mkWorld (st w) (<[l := with_order s v]> (heap w)) (log w))
    | None => (Untyped, w)
    end.

Fixpoint alloc_all (ss : list SectionObj) : M (list loc) :=
  match ss with
  | [] => ret []
  | s :: ss' =>
      let* l := alloc s in
      let* ls := alloc_all ss' in
      ret (l :: ls)
  end.

Fixpoint deref_all (ls : list loc) : M (list SectionObj) :=
  match ls with
  | [] => ret []
  | l :: ls' =>
      let* s := deref l in
      let* ss := deref_all ls' in
      ret (s :: ss)
  end.

(** *** JSON *)

(** [JSON.stringify] of a template reads its section objects. *)
Definition JSON_stringify (t : Template) : M TemplateData :=
  let* ss := deref_all (tpl_sections t) in
  ret (mkTemplateData (tpl_id t) (tpl_name t) (tpl_description t) ss
         (tpl_is_default t) (tpl_is_custom t)).

(** [JSON.parse] builds new section objects. *)
Definition JSON_parse (d : TemplateData) : M Template :=
  let* ls := alloc_all (td_sections d) in
  ret (mkTemplate (td_id d) (td_name d) (td_description d) ls
         (td_is_default d) (td_is_custom d)).

Fixpoint JSON_parse_all (ds : list TemplateData) : M (list Template) :=
  match ds with
  | [] => ret []
  | d :: ds' =>
      let* t := JSON_parse d in
      let* ts := JSON_parse_all ds' in
      ret (t :: ts)
  end.

(** [JSON.parse(JSON.stringify(t))]. *)
Definition deep_copy (t : Template) : M Template :=
  let* d := JSON_stringify t in
  JSON_parse d.

(** ** The handlers of [TemplateManager]

    Every handler takes the state [c] of the render that created it: what
    it reads of the React state it reads there, whatever it has set in
    between.  The answers of the network are arguments. *)

Definition is_null {A : Type} (o : option A) : bool :=
  match o with
  | Some _ => false
  | None => true
  end.

Definition fetchTemplates (c : State) (r : FetchResult (list TemplateData)) : M unit :=
  try_finally
    (try_catch
       (setIsLoading true;;
        setError None;;
        let* response := fetch GET_ "http://127.0.0.1:8050/templates" None r in
        if negb (resp_ok response) then
          throw ("Erreur lors du chargement des templates: " +:+ pretty (resp_status response))
        else
          let* data := json response in
          let* templatesArray := JSON_parse_all data in
          setTemplates templatesArray;;
          match templatesArray with
          | t0 :: _ =>
              if is_null (activeTemplate c) then
                setActiveTemplate (Some t0);;
                let* copy := deep_copy t0 in
                setEditedTemplate (Some copy)
              else ret tt
          | [] => ret tt
          end)
       (fun err =>
          setError (Some ("Erreur lors du chargement des templates: " +:+ err));;
          toast "Erreur" "Impossible de charger les templates. Veuillez réessayer."
            VariantDestructive))
    (setIsLoading false).

Definition handleTemplateChange (template : Template) : M unit :=
  setActiveTemplate (Some template);;
  let* copy := deep_copy template in
  setEditedTemplate (Some copy).

(** The pair [field], [value] of [handleSectionChange], as its callers type
    it ([keyof Section] with a value of the field's type). *)
Inductive FieldValue :=
| F_id (v : string)
| F_name (v : string)
| F_description (v : string)
| F_required (v : bool)
| F_default_enabled (v : bool)
| F_order (v : Z)
| F_rag_query_template (v : string)
| F_prompt_template (v : string).

(** [{...s, [field]: value}]. *)
Definition set_field (s : SectionObj) (fv : FieldValue) : SectionObj :=
  match fv with
  | F_id v =>
      mkSection (Some v) (sec_name s) (sec_description s) (sec_required s)
        (sec_default_enabled s) (sec_order s) (sec_rag_query_template s)
        (sec_prompt_template s)
  | F_name v =>
      mkSection (sec_id s) (Some v) (sec_description s) (sec_required s)
        (sec_default_enabled s) (sec_order s) (sec_rag_query_template s)
        (sec_prompt_template s)
  | F_description v =>
      mkSection (sec_id s) (sec_name s) (Some v) (sec_required s)
        (sec_default_enabled s) (sec_order s) (sec_rag_query_template s)
        (sec_prompt_template s)
  | F_required v =>
      mkSection (sec_id s) (sec_name s) (sec_description s) (Some v)
        (sec_default_enabled s) (sec_order s) (sec_rag_query_template s)
        (sec_prompt_template s)
  | F_default_enabled v =>
      mkSection (sec_id s) (sec_name s) (sec_description s) (sec_required s)
        (Some v) (sec_order s) (sec_rag_query_template s)
        (sec_prompt_template s)
  | F_order v =>
      mkSection (sec_id s) (sec_name s) (sec_description s) (sec_required s)
        (sec_default_enabled s) (Some v) (sec_rag_query_template s)
        (sec_prompt_template s)
  | F_rag_query_template v =>
      mkSection (sec_id s) (sec_name s) (sec_description s) (sec_required s)
        (sec_default_enabled s) (sec_order s) (Some v)
        (sec_prompt_template s)
  | F_prompt_template v =>
      mkSection (sec_id s) (sec_name s) (sec_description s) (sec_required s)
        (sec_default_enabled s) (sec_order s) (sec_rag_query_template s)
        (Some v)
  end.

(** [a[index] = x] on a copy of the array: in range it replaces, at the
    length it grows the array by one, further out it leaves holes. *)
Definition array_set (a : list loc) (index : nat) (x : loc) : M (list loc) :=
  if (index <? length a)%nat then ret (<[index := x]> a)
  else if (index =? length a)%nat then ret (a ++ [x])
  else untyped.

Definition handleSectionChange (c : State) (index : nat) (fv : FieldValue) : M unit :=
  match editedTemplate c with
  | None => ret tt
  | Some et =>
      let updatedSections := tpl_sections et in
      let* old := match updatedSections !! index with
                  | Some l => deref l
                  | None => ret empty_object
                  end in
      let* l' := alloc (set_field old fv) in
      let* updatedSections' := array_set updatedSections index l' in
      setEditedTemplate (Some (with_sections et updatedSections'))
  end.

Definition default_rag_query_template : string :=
  "informations sur {product_name} dans la catégorie {product_category}".

Definition default_prompt_template : string :=
  "Générer une section sur {product_name} en utilisant les informations suivantes: {client_data_context}".

(** [now] is the value of [Date.now()]. *)
Definition addSection (c : State) (now : N) : M unit :=
  match editedTemplate c with
  | None => ret tt
  | Some et =>
      if negb (tpl_is_custom et) then ret tt
      else
        let newSectionId := "section_" +:+ pretty now in
        let* newSection :=
          alloc (mkSection (Some newSectionId) (Some "Nouvelle section")
                   (Some "Description de la nouvelle section") (Some false)
                   (Some true) (Some (Z.of_nat (length (tpl_sections et)) + 1)%Z)
                   (Some default_rag_query_template)
                   (Some default_prompt_template)) in
        setEditedTemplate (Some (with_sections et (tpl_sections et ++ [newSection])));;
        toast "Section ajoutée" "Une nouvelle section a été ajoutée au template."
          VariantDefault
  end.

(** [a.forEach((section, idx) => { section.order = idx + 1; })], from
    position [idx] on. *)
Fixpoint renumber (a : list loc) (idx : nat) : M unit :=
  match a with
  | [] => ret tt
  | l :: a' => set_order l (Z.of_nat idx + 1)%Z;; renumber a' (S idx)
  end.

Definition deleteSection (c : State) (index : nat) : M unit :=
  match editedTemplate c with
  | None => ret tt
  | Some et =>
      if negb (tpl_is_custom et) then ret tt
      else
        let* section := match tpl_sections et !! index with
                        | Some l => deref l
                        | None => throw (TypeError_undefined "required")
                        end in
        if truthy_bool (sec_required section) then
          toast "Action impossible" "Impossible de supprimer une section obligatoire."
            VariantDestructive
        else
          let updatedSections := delete index (tpl_sections et) in
          renumber updatedSections 0;;
          setEditedTemplate (Some (with_sections et updatedSections));;
          toast "Section supprimée" "La section a été supprimée du template."
            VariantDefault
  end.

(** The object built for one section by the [map] of [handleSave]. *)
Definition validateSection (section : SectionObj) : SectionObj :=
  mkSection
    (sec_id section)
    (Some (str_or (sec_name section) "Section sans nom"))
    (Some (str_or (sec_description section) "Description de la section"))
    (Some (defined_or (sec_required section) false))
    (Some (defined_or (sec_default_enabled section) true))
    (Some (defined_or (sec_order section) 0%Z))
    (Some (str_or (sec_rag_query_template section) default_rag_query_template))
    (Some (str_or (sec_prompt_template section) default_prompt_template)).

(** [!id || !id.startsWith('custom_')]. *)
Definition isNewTemplate (id : option string) : bool :=
  negb (truthy_str id)
  || negb (match id with
           | Some i => startsWith i "custom_"
           | None => false
           end).

(** An optional string inside a template literal. *)
Definition interpolate (o : option string) : string :=
  defined_or o "undefined".

Definition save_url (id : option string) : string :=
  if negb (isNewTemplate id) then "http://127.0.0.1:8050/templates/" +:+ interpolate id
  else "http://127.0.0.1:8050/templates".

Definition save_method (id : option string) : Method :=
  if negb (isNewTemplate id) then PUT_ else POST_.

(** [rs] answers the save request, [rl] the list request that follows a
    successful save.  The objects of [validatedSections] only live until
    the body is serialised, so they are kept as values. *)
Definition handleSave (c : State) (rs : FetchResult TemplateData)
    (rl : FetchResult (list TemplateData)) : M unit :=
  match editedTemplate c with
  | None => ret tt
  | Some et =>
      try_finally
        (try_catch
           (setIsSaving true;;
            setError None;;
            setSuccess None;;
            let* sections := deref_all (tpl_sections et) in
            let validatedSections := validateSection <$> sections in
            let url := save_url (tpl_id et) in
            let method := save_method (tpl_id et) in
            let* response :=
              fetch method url
                (Some (mkSaveBody (tpl_name et) (tpl_description et)
                         validatedSections (tpl_is_default et))) rs in
            if negb (resp_ok response) then
              let errorText := defined_or (resp_text response) "Pas de détails disponibles" in
              throw ("Erreur lors de la sauvegarde: " +:+ pretty (resp_status response)
                     +:+ " - " +:+ errorText)
            else
              let* data := json response in
              let* parsed := JSON_parse data in
              let isCustomTemplate :=
                truthy_str (td_id data)
                && match td_id data with
                   | Some i => startsWith i "custom_"
                   | None => false
                   end in
              let savedTemplate :=
                mkTemplate (tpl_id parsed) (tpl_name parsed) (tpl_description parsed)
                  (tpl_sections parsed) (tpl_is_default parsed) isCustomTemplate in
              fetchTemplates c rl;;
              setActiveTemplate (Some savedTemplate);;
              let* copy := deep_copy savedTemplate in
              setEditedTemplate (Some copy);;
              setSuccess (Some "Template sauvegardé avec succès");;
              toast "Succès" "Le template a été sauvegardé avec succès." VariantDefault)
           (fun err =>
              setError (Some ("Erreur lors de la sauvegarde: " +:+ err));;
              toast "Erreur" "Impossible de sauvegarder le template. Veuillez réessayer."
                VariantDestructive))
        (setIsSaving false)
  end.

(** [rd] answers the delete request, [rl] the list request that follows. *)
Definition handleDelete (c : State) (rd : FetchResult unit)
    (rl : FetchResult (list TemplateData)) : M unit :=
  match activeTemplate c with
  | None => ret tt
  | Some at_ =>
      if negb (tpl_is_custom at_) then ret tt
      else
        try_finally
          (try_catch
             (setIsDeleting true;;
              setError None;;
              setSuccess None;;
              let* response :=
                fetch DELETE_ ("http://127.0.0.1:8050/templates/" +:+ interpolate (tpl_id at_))
                  None rd in
              if negb (resp_ok response) then
                throw ("Erreur lors de la suppression: " +:+ pretty (resp_status response))
              else
                fetchTemplates c rl;;
                setActiveTemplate None;;
                setEditedTemplate None;;
                setSuccess (Some "Template supprimé avec succès");;
                toast "Succès" "Le template a été supprimé avec succès." VariantDefault)
             (fun err =>
                setError (Some ("Erreur lors de la suppression: " +:+ err));;
                toast "Erreur" "Impossible de supprimer le template. Veuillez réessayer."
                  VariantDestructive))
          (setIsDeleting false)
  end.

(** [templates.find(t => t.id === baseTemplateId) || templates[0]]. *)
Definition find_base (ts : list Template) (baseId : string) : option Template :=
  match List.find (fun t => match tpl_id t with
                            | Some i => String.eqb i baseId
                            | None => false
                            end) ts with
  | Some t => Some t
  | None => ts !! 0%nat
  end.

Definition handleCreateTemplate (c : State) : M unit :=
  try_catch
    (if String.eqb (trim (newTemplateName c)) "" then
       toast "Erreur" "Le nom du template est requis." VariantDestructive
     else
       let baseTemplate := find_base (templates c) (baseTemplateId c) in
       let* description :=
         if negb (String.eqb (newTemplateDescription c) "") then
           ret (newTemplateDescription c)
         else
           match baseTemplate with
           | Some b => ret ("Template personnalisé basé sur " +:+ tpl_name b)
           | None => throw (TypeError_undefined "name")
           end in
       let* sections :=
         match baseTemplate with
         | Some b => let* ss := deref_all (tpl_sections b) in alloc_all ss
         | None => throw (TypeError_undefined "sections")
         end in
       setShowCreateDialog false;;
       let templateWithCustomProps :=
         mkTemplate (Some "new_template") (newTemplateName c) description sections
           false true in
       setActiveTemplate (Some templateWithCustomProps);;
       setEditedTemplate (Some templateWithCustomProps);;
       setNewTemplateName "";;
       setNewTemplateDescription "";;
       setBaseTemplateId "")
    (fun err =>
       setError (Some ("Erreur lors de la création du template: " +:+ err));;
       toast "Erreur" "Impossible de créer le template. Veuillez réessayer."
         VariantDestructive).

(** The [onClick] of the button "Dupliquer ce template".  The component
    renders the button when [duplicate_rendered] holds. *)
Definition duplicate_rendered (c : State) : bool :=
  negb (is_null (activeTemplate c))
  && match editedTemplate c with
     | Some et => negb (tpl_is_custom et)
     | None => false
     end.

Definition onDuplicateClick (c : State) : M unit :=
  match editedTemplate c with
  | None => throw "Cannot set properties of null (setting 'id')"
  | Some et =>
      let* copy := deep_copy et in
      let copy' :=
        mkTemplate (Some "new_template") ("Copie de " +:+ tpl_name copy)
          (tpl_description copy) (tpl_sections copy) (tpl_is_default copy) true in
      setActiveTemplate (Some copy');;
      setEditedTemplate (Some copy')
  end.

(** Running a handler of the render of [s], from the heap [h]. *)
Definition run {A : Type} (m : M A) (s : State) (h : list SectionObj) : Res A * World :=
  m (mkWorld s h []).

(** The requests among the effects. *)
Definition is_fetch (e : Event) : bool :=
  match e with
  | Fetch _ _ _ => true
  | Toast _ _ _ => false
  end.

Definition requests (l : list Event) : list Event := List.filter is_fetch l.

(** The sections of a template, read through the heap. *)
Definition sections_of (h : list SectionObj) (t : Template) : list (option SectionObj) :=
  (fun l => h !! l) <$> tpl_sections t.

(** The contents of an array of references, when every reference leads
    to an object. *)
Definition read_all (h : list SectionObj) (ls : list loc) : option (list SectionObj) :=
  mapM (fun l => h !! l) ls.

(** The templates [JSON_parse_all] builds on a heap of [n] objects. *)
Fixpoint place_all (n : nat) (ds : list TemplateData) : list Template :=
  match ds with
  | [] => []
  | d :: ds' =>
      mkTemplate (td_id d) (td_name d) (td_description d)
        (seq n (length (td_sections d))) (td_is_default d) (td_is_custom d)
      :: place_all (n + length (td_sections d)) ds'
  end.

(** What the list request gives [fetchTemplates]: the message of the error
    it throws, or the parsed body. *)
Definition list_outcome (r : FetchResult (list TemplateData)) : string + list TemplateData :=
  match r with
  | NetworkError msg => inl msg
  | Responded resp =>
      if resp_ok resp then resp_json resp
      else inl ("Erreur lors du chargement des templates: " +:+ pretty (resp_status resp))
  end.

(** The [order] values of a template's sections, in array order. *)
Definition orders (h : list SectionObj) (t : Template) : list (option Z) :=
  (fun l => h !! l ≫= sec_order) <$> tpl_sections t.

(** The sequence 1..N as [order] values. *)
Definition one_to (n : nat) : list (option Z) :=
  (fun k => Some (Z.of_nat k)) <$> seq 1 n.

(** The [order] values are 1..N, N the number of sections. *)
Definition contiguous (h : list SectionObj) (t : Template) : Prop :=
  orders h t = one_to (length (tpl_sections t)).

(** [t.sections[index].required], read through the heap. *)
Definition required_at (h : list SectionObj) (t : Template) (index : nat) : option bool :=
  match tpl_sections t !! index with
  | Some l =>
      match h !! l with
      | Some s => sec_required s
      | None => None
      end
  | None => None
  end.

(** The names of [keyof Section]. *)
Inductive Field :=
| id_ | name_ | description_ | required_ | default_enabled_ | order_
| rag_query_template_ | prompt_template_.

Definition field_of (fv : FieldValue) : Field :=
  match fv with
  | F_id _ => id_
  | F_name _ => name_
  | F_description _ => description_
  | F_required _ => required_
  | F_default_enabled _ => default_enabled_
  | F_order _ => order_
  | F_rag_query_template _ => rag_query_template_
  | F_prompt_template _ => prompt_template_
  end.

(** [s[f]]: the value of a field, [None] for [undefined]. *)
Definition read_field (f : Field) (s : SectionObj) : option FieldValue :=
  match f with
  | id_ => F_id <$> sec_id s
  | name_ => F_name <$> sec_name s
  | description_ => F_description <$> sec_description s
  | required_ => F_required <$> sec_required s
  | default_enabled_ => F_default_enabled <$> sec_default_enabled s
  | order_ => F_order <$> sec_order s
  | rag_query_template_ => F_rag_query_template <$> sec_rag_query_template s
  | prompt_template_ => F_prompt_template <$> sec_prompt_template s
  end.

(** A section object with none of the optional fields missing. *)
Definition complete (s : SectionObj) : Prop :=
  is_Some (sec_name s) /\ is_Some (sec_description s) /\ is_Some (sec_required s)
  /\ is_Some (sec_default_enabled s) /\ is_Some (sec_order s)
  /\ is_Some (sec_rag_query_template s) /\ is_Some (sec_prompt_template s).

(** What the save request gives [handleSave]: the message of the error it
    throws, or the parsed body. *)
Definition save_outcome (rs : FetchResult TemplateData) : string + TemplateData :=
  match rs with
  | NetworkError msg => inl msg
  | Responded resp =>
      if resp_ok resp then resp_json resp
      else inl ("Erreur lors de la sauvegarde: " +:+ pretty (resp_status resp) +:+ " - "
                +:+ defined_or (resp_text resp) "Pas de détails disponibles")
  end.

(** The request of [handleSave] for the buffer [et] whose sections read [ss]. *)
Definition save_request (et : Template) (ss : list SectionObj) : Event :=
  Fetch (save_method (tpl_id et)) (save_url (tpl_id et))
    (Some (mkSaveBody (tpl_name et) (tpl_description et) (validateSection <$> ss)
             (tpl_is_default et))).

(** [savedTemplate], parsed on a heap of [n] objects, with [is_custom] set from
    its id. *)
Definition saved_template (n : nat) (d : TemplateData) : Template :=
  mkTemplate (td_id d) (td_name d) (td_description d) (seq n (length (td_sections d)))
    (td_is_default d)
    (truthy_str (td_id d)
     && match td_id d with
        | Some i => startsWith i "custom_"
        | None => false
        end).

(** What the delete request gives [handleDelete]: the message of the error
    it throws, if any. *)
Definition delete_outcome (rd : FetchResult unit) : option string :=
  match rd with
  | NetworkError msg => Some msg
  | Responded resp =>
      if resp_ok resp then None
      else Some ("Erreur lors de la suppression: " +:+ pretty (resp_status resp))
  end.

Definition delete_request (a : Template) : Event :=
  Fetch DELETE_ ("http://127.0.0.1:8050/templates/" +:+ interpolate (tpl_id a)) None.

Definition list_request : Event :=
  Fetch GET_ "http://127.0.0.1:8050/templates" None.

(** The heap once [renumber a idx] has run. *)
Fixpoint renumbered (h : list SectionObj) (a : list loc) (idx : nat) : list SectionObj :=
  match a with
  | [] => h
  | l :: a' =>
      match h !! l with
      | Some s => renumbered (<[l := with_order s (Z.of_nat idx + 1)]> h) a' (S idx)
      | None => h
      end
  end.

(** A template whose sections are distinct objects of the heap. *)
Definition well_formed (h : list SectionObj) (t : Template) : Prop :=
  NoDup (tpl_sections t) /\ Forall (fun l => l < length h)%nat (tpl_sections t).

(** The method and the URL of the first request among the effects. *)
Definition first_request (l : list Event) : option (Method * string) :=
  match requests l with
  | Fetch m u _ :: _ => Some (m, u)
  | _ => None
  end.

(** ** Sample data

    One heap with a default template and a custom one: the templates of the
    list own the objects 0 and 1, the edit buffer owns the copies 2 and 3. *)

Definition section_required : SectionObj :=
  mkSection (Some "specs") (Some "Caractéristiques") (Some "Fiche technique")
    (Some true) (Some true) (Some 1%Z) (Some "dimensions de {product_name}")
    (Some "Lister les caractéristiques").

Definition section_5 : SectionObj :=
  mkSection (Some "intro") (Some "Introduction") None (Some false) (Some true)
    (Some 5%Z) (Some "contexte de {product_name}") (Some "").

Definition sample_heap : list SectionObj :=
  [section_required; section_5; section_required; section_5].

Definition custom_42 : Template :=
  mkTemplate (Some "custom_42") "Ma fiche" "Fiche personnalisée" [0; 1]%nat false true.

Definition buffer_42 : Template := with_sections custom_42 [2; 3]%nat.

Definition state_42 : State :=
  mkState [custom_42] (Some custom_42) (Some buffer_42) false false false None None
    false "" "" "".

Definition default_7 : Template :=
  mkTemplate (Some "default_7") "Standard" "Modèle standard" [0; 1]%nat true false.

Definition buffer_7 : Template := with_sections default_7 [2; 3]%nat.

Definition state_7 : State :=
  mkState [default_7] (Some default_7) (Some buffer_7) false false false None None
    false "" "" "".

(** The answer of the backend to the save of [buffer_42]. *)
Definition saved_42 : TemplateData :=
  mkTemplateData (Some "custom_42") "Ma fiche" "Fiche personnalisée"
    [validateSection section_required; validateSection section_5] false false.

(** The dialog filled in before any template is loaded. *)
Definition state_empty : State :=
  mkState [] None None false false false None None true "Fiche mobilier" "" "".

(** The default template as the backend lists it. *)
Definition data_7 : TemplateData :=
  mkTemplateData (Some "default_7") "Standard" "Modèle standard"
    [section_required; section_5] true false.

(** The sample state with a buffer of the given id. *)
Definition state_with_id (id : option string) : State :=
  mkState [default_7] (Some default_7)
    (Some (mkTemplate id "Ma fiche" "Fiche personnalisée" [2; 3]%nat false true))
    false false false None None false "" "" "".

(** ** The proxy route handlers *)

Module Proxy.

(** What a [catch] clause reads of the error it receives. *)
Record JsError := mkError {
  message : string;
  stack : string
}.

Inductive Promise (A : Type) :=
| Resolved (a : A)
| Rejected (e : JsError).
Arguments Resolved {A} _.
Arguments Rejected {A} _.

(** The value given to [NextResponse.json]: the data of the backend, or
    the object [{error, details, stack}]. *)
Inductive Body (Json : Type) :=
| Data (d : Json)
| ErrorObject (error details stack : string).
Arguments Data {Json} _.
Arguments ErrorObject {Json} _ _ _.

Record NextResponse (Json : Type) := mkNextResponse {
  body : Body Json;
  status : nat
}.
Arguments mkNextResponse {Json} _ _.
Arguments body {Json} _.
Arguments status {Json} _.

(** [process.env.NEXT_PUBLIC_API_URL || fallback]. *)
Definition API_URL (env : option string) (fallback : string) : string :=
  str_or env fallback.

(** The [catch] clause shared by the handlers. *)
Definition error_response {Json : Type} (label : string) (e : JsError) : NextResponse Json :=
  mkNextResponse (ErrorObject label (message e) (stack e)) 500.

(** [try { data = await request.json(); response = await axios.post(url, data);
    return NextResponse.json(response.data) } catch ...]: [body_json] is the
    promise of [request.json()], [axios_post] the client. *)
Definition post_handler {Json : Type} (url label : string)
    (body_json : Promise Json) (axios_post : string -> Json -> Promise Json)
    : NextResponse Json :=
  match body_json with
  | Rejected e => error_response label e
  | Resolved data =>
      match axios_post url data with
      | Rejected e => error_response label e
      | Resolved d => mkNextResponse (Data d) 200
      end
  end.

Definition get_handler {Json : Type} (url label : string)
    (axios_get : string -> Promise Json) : NextResponse Json :=
  match axios_get url with
  | Rejected e => error_response label e
  | Resolved d => mkNextResponse (Data d) 200
  end.

(** The route of the RAG generation. *)
Module Rag.
Definition POST {Json : Type} (env : option string) :=
  @post_handler Json (API_URL env "http://127.0.0.1:8050" +:+ "/generate-with-rag")
    "Erreur lors de la génération avec RAG".
End Rag.

(** Its copy with the address of the container network. *)
Module RagService.
Definition POST {Json : Type} (env : option string) :=
  @post_handler Json (API_URL env "http://rfp-backend:8050" +:+ "/generate-with-rag")
    "Erreur lors de la génération avec RAG".
End RagService.

(** The route of the templates. *)
Module TemplateRoute.
Definition GET {Json : Type} (env : option string) :=
  @get_handler Json (API_URL env "http://127.0.0.1:8050" +:+ "/templates")
    "Erreur lors de la récupération des templates".

Definition POST {Json : Type} (env : option string) :=
  @post_handler Json (API_URL env "http://127.0.0.1:8050" +:+ "/templates/generate")
    "Erreur lors de la génération avec template".
End TemplateRoute.

(** The route of the product descriptions. *)
Module Generate.
Definition POST {Json : Type} (env : option string) :=
  @post_handler Json (API_URL env "http://127.0.0.1:8050" +:+ "/generate-product-description")
    "Erreur lors de la génération de la description".
End Generate.

(** The POST handlers of the route files. *)
Definition post_routes {Json : Type} (env : option string)
    : list (Promise Json -> (string -> Json -> Promise Json) -> NextResponse Json) :=
  [Rag.POST env; RagService.POST env; TemplateRoute.POST env; Generate.POST env].

(** [details] of an answer, when it is the error object. *)
Definition details_of {Json : Type} (r : NextResponse Json) : option string :=
  match body r with
  | ErrorObject _ d _ => Some d
  | Data _ => None
  end.

(** A POST handler answers as the proxies do when, for some URL and label,
    it gives the data of the backend with status 200 if both calls resolve,
    and otherwise the error object of the first error with status 500. *)
Definition answers_post {Json : Type}
    (handler : Promise Json -> (string -> Json -> Promise Json) -> NextResponse Json) : Prop :=
  exists url label,
    forall body_json axios_post,
      match body_json with
      | Rejected e =>
          handler body_json axios_post
          = mkNextResponse (ErrorObject label (message e) (stack e)) 500
      | Resolved data =>
          match axios_post url data with
          | Rejected e =>
              handler body_json axios_post
              = mkNextResponse (ErrorObject label (message e) (stack e)) 500
          | Resolved d => handler body_json axios_post = mkNextResponse (Data d) 200
          end
      end.

Definition answers_get {Json : Type}
    (handler : (string -> Promise Json) -> NextResponse Json) : Prop :=
  exists url label,
    forall axios_get,
      match axios_get url with
      | Rejected e =>
          handler axios_get = mkNextResponse (ErrorObject label (message e) (stack e)) 500
      | Resolved d => handler axios_get = mkNextResponse (Data d) 200
      end.

End Proxy.

(** ** The controls of the editor card *)

(** The [onChange] of the input "Nom du template":
    [setEditedTemplate({...editedTemplate, name: value})].  The input is
    rendered with the editor card only; on a null buffer the spread gives an
    object without sections, which [Template] does not type. *)
Definition onTemplateNameChange (c : State) (value : string) : M unit :=
  match editedTemplate c with
  | None => untyped
  | Some et =>
      setEditedTemplate
        (Some (mkTemplate (tpl_id et) value (tpl_description et) (tpl_sections et)
                 (tpl_is_default et) (tpl_is_custom et)))
  end.

(** The [onChange] of the textarea "Description". *)
Definition onTemplateDescriptionChange (c : State) (value : string) : M unit :=
  match editedTemplate c with
  | None => untyped
  | Some et =>
      setEditedTemplate
        (Some (mkTemplate (tpl_id et) (tpl_name et) value (tpl_sections et)
                 (tpl_is_default et) (tpl_is_custom et)))
  end.

(** The component returns the skeleton while [isLoading]; otherwise the
    editor card is rendered when [activeTemplate && editedTemplate]. *)
Definition editor_rendered (c : State) : bool :=
  negb (isLoading c) && negb (is_null (activeTemplate c))
  && negb (is_null (editedTemplate c)).

(** [disabled={!editedTemplate.is_custom}] on the inputs of the card. *)
Definition inputs_disabled (et : Template) : bool := negb (tpl_is_custom et).

(** [editedTemplate.is_custom && !section.required], for the section the
    [map] of the card renders at [index]: its delete button. *)
Definition delete_button_rendered (h : list SectionObj) (et : Template) (index : nat) : bool :=
  match tpl_sections et !! index with
  | Some l =>
      match h !! l with
      | Some section => tpl_is_custom et && negb (truthy_bool (sec_required section))
      | None => false
      end
  | None => false
  end.

(** [editedTemplate.is_custom &&] before the button "Ajouter une nouvelle
    section" and before the buttons "Supprimer" and "Sauvegarder". *)
Definition add_button_rendered (et : Template) : bool := tpl_is_custom et.

Definition save_buttons_rendered (et : Template) : bool := tpl_is_custom et.

(** A handler of the render that follows a run: it is created from the
    state the run left and goes on in its world. *)
Definition then_run (r : Res unit * World) (handler : State -> M unit) : Res unit * World :=
  match r with
  | (Val _, w) => handler (st w) w
  | other => other
  end.

(** ** The accordion trigger *)

Module Accordion.





End Accordion.

(** ** More sample data *)

Definition state_dialog : State :=
  mkState [default_7] None None false false false None None true "Fiche mobilier" ""
    "default_7".

Definition state_blank : State :=
  mkState [] None None false false false None None true
    (String "009" (String " " (String "194" (String "160" "")))) "Sans nom" "".

Definition custom_43 : Template :=
  mkTemplate (Some "custom_43") "Fiche courte" "Deux sections" [1; 0]%nat false true.

Definition state_choice : State :=
  mkState [default_7; custom_42; custom_43] (Some default_7) (Some buffer_7) false false false
    None None true "Fiche mobilier" "" "custom_43".

Definition section_7 : SectionObj :=
  mkSection (Some "avantages") (Some "Avantages") (Some "Points forts") (Some false)
    (Some true) (Some 7%Z) (Some "avantages de {product_name}") (Some "Lister les avantages").

Definition heap_9 : list SectionObj := [section_5; section_7; section_5; section_7].

Definition default_9 : Template :=
  mkTemplate (Some "default_9") "Court" "Deux sections" [0; 1]%nat false false.

Definition state_9 : State :=
  mkState [default_9] (Some default_9) (Some (with_sections default_9 [2; 3]%nat))
    false false false None None false "" "" "".

(** * Properties *)

(** Opens a world down to the variables of its state, so that the setters
    compute. *)
Ltac open_world w := destruct w as [[? ? ? ? ? ? ? ? ? ? ? ?] ? ?].

(** ** The heap *)

Lemma alloc_all_run ss w :
  alloc_all ss w
  = (Val (seq (length (heap w)) (length ss)), mkWorld (st w) (heap w ++ ss) (log w)).
Proof.
  revert w. induction ss as [|s ss IH]; intros w; simpl.
  - unfold ret. rewrite app_nil_r. by destruct w.
  - unfold bind, alloc at 1. rewrite IH. simpl. unfold ret.
    rewrite length_app, <- app_assoc. simpl. by rewrite Nat.add_1_r.
Qed.

Lemma deref_all_run ls w :
  deref_all ls w = match read_all (heap w) ls with
                   | Some ss => (Val ss, w)
                   | None => (Untyped, w)
                   end.
Proof.
  induction ls as [|l ls IH]; simpl; [done|].
  unfold bind, deref at 1. unfold read_all. simpl.
  destruct (heap w !! l) as [s|]; simpl; [|done].
  rewrite IH. unfold read_all. by destruct (mapM _ ls).
Qed.

Lemma read_all_length h ls ss : read_all h ls = Some ss -> length ss = length ls.
Proof. intros H. symmetry. by eapply length_mapM. Qed.

(** Objects allocated later do not change what older references read. *)
Lemma read_all_app h ext ls ss :
  read_all h ls = Some ss -> read_all (h ++ ext) ls = Some ss.
Proof.
  unfold read_all. rewrite !mapM_Some. intros H.
  eapply Forall2_impl; [exact H|]. simpl. intros l s Hl.
  rewrite lookup_app_l; [done|]. by eapply lookup_lt_Some.
Qed.

(** A block of fresh references reads the block. *)
Lemma read_all_seq h ss ext :
  read_all (h ++ ss ++ ext) (seq (length h) (length ss)) = Some ss.
Proof.
  unfold read_all. apply mapM_Some.
  revert h. induction ss as [|s ss IH]; intros h; simpl; [constructor|].
  constructor.
  - rewrite lookup_app_r by lia. by rewrite Nat.sub_diag.
  - specialize (IH (h ++ [s])). rewrite length_app in IH. simpl in IH.
    rewrite Nat.add_1_r, <- app_assoc in IH. exact IH.
Qed.

Lemma read_all_valid h ls ss :
  read_all h ls = Some ss -> Forall (fun l => l < length h)%nat ls.
Proof.
  unfold read_all. rewrite mapM_Some. intros H.
  induction H as [|l s ls ss Hl _ IH]; constructor; [|done].
  by eapply lookup_lt_Some.
Qed.

Lemma lookups_read (h : list SectionObj) (ls : list loc) ss :
  read_all h ls = Some ss -> (fun l => h !! l) <$> ls = Some <$> ss.
Proof.
  unfold read_all. rewrite mapM_Some.
  induction 1 as [|l s ls' ss' Hl _ IH]; csimpl; [done|]. by f_equal.
Qed.

Lemma sections_of_read h t ss :
  read_all h (tpl_sections t) = Some ss -> sections_of h t = Some <$> ss.
Proof. apply lookups_read. Qed.

Lemma JSON_parse_run d w :
  JSON_parse d w
  = (Val (mkTemplate (td_id d) (td_name d) (td_description d)
            (seq (length (heap w)) (length (td_sections d)))
            (td_is_default d) (td_is_custom d)),
     mkWorld (st w) (heap w ++ td_sections d) (log w)).
Proof. unfold JSON_parse, bind. by rewrite alloc_all_run. Qed.

Lemma JSON_parse_all_run ds w :
  JSON_parse_all ds w
  = (Val (place_all (length (heap w)) ds),
     mkWorld (st w) (heap w ++ concat (td_sections <$> ds)) (log w)).
Proof.
  revert w. induction ds as [|d ds IH]; intros w; simpl.
  - unfold ret. rewrite app_nil_r. by destruct w.
  - unfold bind. rewrite JSON_parse_run, IH. simpl. unfold ret.
    by rewrite length_app, <- app_assoc.
Qed.

Lemma deep_copy_run t w :
  deep_copy t w
  = match read_all (heap w) (tpl_sections t) with
    | Some ss =>
        (Val (with_sections t (seq (length (heap w)) (length ss))),
         mkWorld (st w) (heap w ++ ss) (log w))
    | None => (Untyped, w)
    end.
Proof.
  unfold deep_copy, JSON_stringify, bind. rewrite deref_all_run.
  destruct (read_all _ _) as [ss|]; [|done].
  unfold ret. by rewrite JSON_parse_run.
Qed.

(** ** [fetchTemplates], case by case *)

Lemma fetchTemplates_failed c r w msg :
  list_outcome r = inl msg ->
  fetchTemplates c r w
  = (Val tt,
     mkWorld
       (upd_IsLoading false
          (upd_Error (Some ("Erreur lors du chargement des templates: " +:+ msg)) (st w)))
       (heap w)
       (log w ++ [Fetch GET_ "http://127.0.0.1:8050/templates" None;
                  Toast "Erreur" "Impossible de charger les templates. Veuillez réessayer."
                    VariantDestructive])).
Proof.
  intros H. open_world w.
  destruct r as [m|resp]; simpl in H.
  - injection H as <-. unfold fetchTemplates, try_finally, try_catch, bind. simpl.
    by rewrite <- app_assoc.
  - unfold fetchTemplates, try_finally, try_catch, bind, fetch, json. simpl.
    destruct (resp_ok resp); simpl.
    + rewrite H. simpl. by rewrite <- app_assoc.
    + injection H as <-. by rewrite <- app_assoc.
Qed.

Lemma fetchTemplates_kept c r w ds :
  list_outcome r = inr ds ->
  ds = [] \/ activeTemplate c <> None ->
  fetchTemplates c r w
  = (Val tt,
     mkWorld
       (upd_IsLoading false
          (upd_Templates (place_all (length (heap w)) ds) (upd_Error None (st w))))
       (heap w ++ concat (td_sections <$> ds))
       (log w ++ [Fetch GET_ "http://127.0.0.1:8050/templates" None])).
Proof.
  intros H Hk. open_world w.
  destruct r as [m|resp]; simpl in H; [done|].
  destruct (resp_ok resp) eqn:Hok; [|done].
  unfold fetchTemplates, try_finally, try_catch, bind, fetch, json. simpl.
  rewrite Hok, H. simpl. rewrite JSON_parse_all_run. simpl.
  destruct ds as [|d ds]; simpl; [done|].
  destruct Hk as [?|Hk]; [done|].
  destruct (activeTemplate c); [done|congruence].
Qed.

Lemma fetchTemplates_selected c r w d ds :
  list_outcome r = inr (d :: ds) ->
  activeTemplate c = None ->
  let t0 := mkTemplate (td_id d) (td_name d) (td_description d)
              (seq (length (heap w)) (length (td_sections d)))
              (td_is_default d) (td_is_custom d) in
  let h1 := heap w ++ concat (td_sections <$> d :: ds) in
  let copy := with_sections t0 (seq (length h1) (length (td_sections d))) in
  fetchTemplates c r w
  = (Val tt,
     mkWorld
       (upd_IsLoading false
          (upd_EditedTemplate (Some copy)
             (upd_ActiveTemplate (Some t0)
                (upd_Templates (place_all (length (heap w)) (d :: ds))
                   (upd_Error None (st w))))))
       (h1 ++ td_sections d)
       (log w ++ [Fetch GET_ "http://127.0.0.1:8050/templates" None])).
Proof.
  intros H Ha. open_world w.
  destruct r as [m|resp]; simpl in H; [done|].
  destruct (resp_ok resp) eqn:Hok; [|done].
  remember (d :: ds) as dl eqn:Hdl.
  unfold fetchTemplates, try_finally, try_catch, bind, fetch, json. simpl.
  rewrite Hok, H. simpl. rewrite JSON_parse_all_run. subst dl. simpl.
  rewrite Ha. simpl. rewrite deep_copy_run. simpl.
  rewrite <- app_assoc, read_all_seq. simpl. by rewrite <- !app_assoc.
Qed.

Lemma requests_app l1 l2 : requests (l1 ++ l2) = requests l1 ++ requests l2.
Proof. unfold requests. apply List.filter_app. Qed.

(** Whatever the list request meets, [fetchTemplates] returns: it issues
    its one request, allocates at most, and never throws. *)
Lemma fetchTemplates_total c r w :
  exists s' hx lx,
    fetchTemplates c r w
    = (Val tt, mkWorld s' (heap w ++ hx)
                 (log w ++ Fetch GET_ "http://127.0.0.1:8050/templates" None :: lx))
    /\ requests lx = []
    /\ templates s' = match list_outcome r with
                      | inl _ => templates (st w)
                      | inr ds => place_all (length (heap w)) ds
                      end
    /\ error s' = match list_outcome r with
                  | inl msg => Some ("Erreur lors du chargement des templates: " +:+ msg)
                  | inr _ => None
                  end.
Proof.
  destruct (list_outcome r) as [msg|ds] eqn:Hr.
  - eexists _, [], _. rewrite (fetchTemplates_failed c r w msg Hr).
    rewrite app_nil_r. repeat split; reflexivity.
  - destruct ds as [|d ds].
    + eexists _, _, []. rewrite (fetchTemplates_kept c r w [] Hr) by (by left).
      repeat split; reflexivity.
    + destruct (activeTemplate c) as [a|] eqn:Ha.
      * eexists _, _, []. rewrite (fetchTemplates_kept c r w _ Hr) by (right; congruence).
        repeat split; reflexivity.
      * eexists _, _, []. rewrite (fetchTemplates_selected c r w d ds Hr Ha).
        rewrite <- app_assoc. repeat split; reflexivity.
Qed.


(** ** [handleSave] and [handleDelete], case by case *)

Lemma handleSave_failed c et rs rl w ss msg :
  editedTemplate c = Some et ->
  read_all (heap w) (tpl_sections et) = Some ss ->
  save_outcome rs = inl msg ->
  handleSave c rs rl w
  = (Val tt,
     mkWorld
       (upd_IsSaving false
          (upd_Error (Some ("Erreur lors de la sauvegarde: " +:+ msg))
             (upd_Success None (st w))))
       (heap w)
       (log w ++ [save_request et ss;
                  Toast "Erreur" "Impossible de sauvegarder le template. Veuillez réessayer."
                    VariantDestructive])).
Proof.
  intros He Hss H. open_world w.
  unfold handleSave. rewrite He.
  unfold try_finally, try_catch, bind. simpl. rewrite deref_all_run. simpl in *.
  rewrite Hss. unfold fetch, bind. simpl.
  destruct rs as [m|resp]; simpl in H.
  - injection H as <-. simpl. by rewrite <- app_assoc.
  - simpl. destruct (resp_ok resp); simpl.
    + unfold json. rewrite H. simpl. by rewrite <- app_assoc.
    + injection H as <-. by rewrite <- app_assoc.
Qed.

Lemma handleSave_saved c et rs rl w ss d :
  editedTemplate c = Some et ->
  read_all (heap w) (tpl_sections et) = Some ss ->
  save_outcome rs = inr d ->
  exists s1 hx lx,
    let saved := saved_template (length (heap w)) d in
    let h1 := heap w ++ td_sections d ++ hx in
    handleSave c rs rl w
    = (Val tt,
       mkWorld
         (upd_IsSaving false
            (upd_Success (Some "Template sauvegardé avec succès")
               (upd_EditedTemplate
                  (Some (with_sections saved (seq (length h1) (length (td_sections d)))))
                  (upd_ActiveTemplate (Some saved) s1))))
         (h1 ++ td_sections d)
         (log w ++ save_request et ss
            :: Fetch GET_ "http://127.0.0.1:8050/templates" None
            :: lx ++ [Toast "Succès" "Le template a été sauvegardé avec succès."
                        VariantDefault]))
    /\ requests lx = []
    /\ error s1 = match list_outcome rl with
                  | inl msg => Some ("Erreur lors du chargement des templates: " +:+ msg)
                  | inr _ => None
                  end.
Proof.
  intros He Hss H. open_world w.
  destruct rs as [m|resp]; simpl in H; [done|].
  destruct (resp_ok resp) eqn:Hok; [|done].
  unfold handleSave. rewrite He.
  unfold try_finally, try_catch, bind. simpl. rewrite deref_all_run. simpl in *.
  rewrite Hss. unfold fetch, bind. simpl. rewrite Hok. simpl.
  unfold json. rewrite H. simpl. rewrite JSON_parse_run. simpl.
  match goal with |- context [fetchTemplates c rl ?w0] =>
    destruct (fetchTemplates_total c rl w0) as (s1 & hx & lx & -> & Hlx & _ & Herr) end.
  simpl. rewrite deep_copy_run. simpl.
  rewrite <- app_assoc, read_all_seq. simpl.
  exists s1, hx, lx. split; [|done].
  rewrite <- !app_assoc. simpl. reflexivity.
Qed.

Lemma handleDelete_failed c a rd rl w msg :
  activeTemplate c = Some a ->
  tpl_is_custom a = true ->
  delete_outcome rd = Some msg ->
  handleDelete c rd rl w
  = (Val tt,
     mkWorld
       (upd_IsDeleting false
          (upd_Error (Some ("Erreur lors de la suppression: " +:+ msg))
             (upd_Success None (st w))))
       (heap w)
       (log w ++ [delete_request a;
                  Toast "Erreur" "Impossible de supprimer le template. Veuillez réessayer."
                    VariantDestructive])).
Proof.
  intros Ha Hc H. open_world w.
  unfold handleDelete. rewrite Ha, Hc.
  unfold try_finally, try_catch, bind, fetch, bind. simpl.
  destruct rd as [m|resp]; simpl in H.
  - injection H as <-. simpl. by rewrite <- app_assoc.
  - simpl. destruct (resp_ok resp); [done|]. simpl.
    injection H as <-. by rewrite <- app_assoc.
Qed.

Lemma handleDelete_deleted c a rd rl w :
  activeTemplate c = Some a ->
  tpl_is_custom a = true ->
  delete_outcome rd = None ->
  exists s1 hx lx,
    handleDelete c rd rl w
    = (Val tt,
       mkWorld
         (upd_IsDeleting false
            (upd_Success (Some "Template supprimé avec succès")
               (upd_EditedTemplate None (upd_ActiveTemplate None s1))))
         (heap w ++ hx)
         (log w ++ delete_request a :: list_request
            :: lx ++ [Toast "Succès" "Le template a été supprimé avec succès."
                        VariantDefault]))
    /\ requests lx = []
    /\ templates s1 = match list_outcome rl with
                      | inl _ => templates (st w)
                      | inr ds => place_all (length (heap w)) ds
                      end.
Proof.
  intros Ha Hc H. open_world w.
  destruct rd as [m|resp]; simpl in H; [done|].
  destruct (resp_ok resp) eqn:Hok; [|done].
  unfold handleDelete. rewrite Ha, Hc.
  unfold try_finally, try_catch, bind, fetch, bind. simpl. rewrite Hok. simpl.
  match goal with |- context [fetchTemplates c rl ?w0] =>
    destruct (fetchTemplates_total c rl w0) as (s1 & hx & lx & -> & Hlx & Ht & _) end.
  simpl in *. exists s1, hx, lx. split; [|done].
  rewrite <- !app_assoc. simpl. reflexivity.
Qed.

(** ** The save decision *)

(** The first effect of a save is its request. *)
Lemma handleSave_request c et rs rl h ss :
  editedTemplate c = Some et ->
  read_all h (tpl_sections et) = Some ss ->
  exists rest, log (run (handleSave c rs rl) c h).2 = save_request et ss :: rest.
Proof.
  intros He Hss. unfold run.
  destruct (save_outcome rs) as [msg|d] eqn:Hrs.
  - rewrite (handleSave_failed c et rs rl (mkWorld c h []) ss msg He Hss Hrs). simpl. eauto.
  - destruct (handleSave_saved c et rs rl (mkWorld c h []) ss d He Hss Hrs)
      as (s1 & hx & lx & -> & _ & _). simpl. eauto.
Qed.

(** C1: the save request is a create (POST to the collection) when the id of
    the buffer is absent or lacks the prefix custom_, and an update (PUT to
    the URL of the id) exactly when the id is present with that prefix. *)
Theorem handleSave_create_or_update c et rs rl h ss :
  editedTemplate c = Some et ->
  read_all h (tpl_sections et) = Some ss ->
  exists m u body,
    head (requests (log (run (handleSave c rs rl) c h).2)) = Some (Fetch m u (Some body))
    /\ (tpl_id et = None \/ (exists i, tpl_id et = Some i /\ startsWith i "custom_" = false) ->
        m = POST_ /\ u = "http://127.0.0.1:8050/templates")
    /\ (forall i, tpl_id et = Some i -> startsWith i "custom_" = true ->
        m = PUT_ /\ u = "http://127.0.0.1:8050/templates/" +:+ i)
    /\ (m = PUT_ -> exists i, tpl_id et = Some i /\ startsWith i "custom_" = true).
Proof.
  intros He Hss.
  destruct (handleSave_request c et rs rl h ss He Hss) as (rest & ->).
  eexists _, _, _. split; [reflexivity|].
  unfold save_method, save_url, isNewTemplate.
  destruct (tpl_id et) as [i|]; simpl.
  - destruct (startsWith i "custom_") eqn:Hp.
    + assert (String.eqb i "" = false) as ->.
      { destruct i; [discriminate Hp|done]. }
      simpl. split; [|split].
      * intros [?|(j & [= <-] & ?)]; congruence.
      * intros j [= <-] _. done.
      * eauto.
    + rewrite orb_true_r. simpl. split; [done|]. split; [|done].
      intros j [= <-] ?. congruence.
  - split; [done|]. split; [done|]. done.
Qed.

Lemma handleSave_create_or_update_witness :
  exists m u body,
    head (requests (log (run (handleSave state_42 (NetworkError "Failed to fetch")
                                (NetworkError "Failed to fetch")) state_42 sample_heap).2))
    = Some (Fetch m u (Some body))
    /\ m = PUT_ /\ u = "http://127.0.0.1:8050/templates/custom_42".
Proof.
  destruct (handleSave_create_or_update state_42 buffer_42 (NetworkError "Failed to fetch")
              (NetworkError "Failed to fetch") sample_heap [section_required; section_5]
              eq_refl eq_refl)
    as (m & u & body & H & _ & Hput & _).
  exists m, u, body. split; [exact H|]. exact (Hput "custom_42" eq_refl eq_refl).
Defined.

(** The three cases the specification lists. *)
Example handleSave_without_id :
  first_request (log (run (handleSave (state_with_id None) (NetworkError "Failed to fetch")
                             (NetworkError "Failed to fetch"))
                        (state_with_id None) sample_heap).2)
  = Some (POST_, "http://127.0.0.1:8050/templates").
Proof. reflexivity. Qed.

Example handleSave_custom_42 :
  first_request (log (run (handleSave (state_with_id (Some "custom_42"))
                             (NetworkError "Failed to fetch") (NetworkError "Failed to fetch"))
                        (state_with_id (Some "custom_42")) sample_heap).2)
  = Some (PUT_, "http://127.0.0.1:8050/templates/custom_42").
Proof. reflexivity. Qed.

Example handleSave_default_7 :
  first_request (log (run (handleSave (state_with_id (Some "default_7"))
                             (NetworkError "Failed to fetch") (NetworkError "Failed to fetch"))
                        (state_with_id (Some "default_7")) sample_heap).2)
  = Some (POST_, "http://127.0.0.1:8050/templates").
Proof. reflexivity. Qed.

(** ** Section order *)

Lemma renumber_run a idx w :
  Forall (fun l => l < length (heap w))%nat a ->
  renumber a idx w = (Val tt, mkWorld (st w) (renumbered (heap w) a idx) (log w)).
Proof.
  revert idx w. induction a as [|l a IH]; intros idx w Hv.
  - by destruct w.
  - inversion Hv as [|? ? Hl Ha]; subst.
    destruct (lookup_lt_is_Some_2 _ _ Hl) as [s Hs].
    cbn [renumber renumbered]. unfold bind, set_order. rewrite Hs.
    rewrite IH; [done|]. cbn [heap]. eapply Forall_impl; [exact Ha|].
    intros ? ?. by rewrite length_insert.
Qed.

Lemma renumbered_length h a idx : length (renumbered h a idx) = length h.
Proof.
  revert h idx. induction a as [|l a IH]; intros h idx; simpl; [done|].
  destruct (h !! l); [|done]. by rewrite IH, length_insert.
Qed.

(** Renumbering writes to the objects of the array only. *)
Lemma renumbered_other h a idx l :
  l ∉ a -> renumbered h a idx !! l = h !! l.
Proof.
  revert h idx. induction a as [|l0 a IH]; intros h idx Hn; simpl; [done|].
  apply not_elem_of_cons in Hn as [Hne Hn].
  destruct (h !! l0); [|done].
  rewrite IH by done. by rewrite list_lookup_insert_ne.
Qed.

(** It keeps every field but [order]. *)
Lemma renumbered_order h a idx :
  NoDup a ->
  Forall (fun l => l < length h)%nat a ->
  (fun l => renumbered h a idx !! l ≫= sec_order) <$> a
  = (fun k => Some (Z.of_nat k + 1)%Z) <$> seq idx (length a).
Proof.
  revert h idx. induction a as [|l a IH]; intros h idx Hnd Hv; csimpl; [done|].
  inversion Hv as [|? ? Hl Ha]; subst.
  apply NoDup_cons in Hnd as [Hnot Hnd].
  destruct (lookup_lt_is_Some_2 _ _ Hl) as [s Hs]. rewrite Hs.
  f_equal.
  - rewrite renumbered_other by done.
    rewrite list_lookup_insert_eq by done. done.
  - apply IH; [done|]. eapply Forall_impl; [exact Ha|].
    intros ? ?. by rewrite length_insert.
Qed.

Lemma one_to_seq n : (fun k => Some (Z.of_nat k + 1)%Z) <$> seq 0 n = one_to n.
Proof.
  unfold one_to. rewrite <- (fmap_S_seq 0 n). rewrite <- list_fmap_compose.
  apply list_fmap_ext. intros _ k _. simpl. f_equal. lia.
Qed.

(** ** [addSection] and [deleteSection], case by case *)

Lemma addSection_run c et now w :
  editedTemplate c = Some et ->
  tpl_is_custom et = true ->
  addSection c now w
  = (Val tt,
     mkWorld
       (upd_EditedTemplate
          (Some (with_sections et (tpl_sections et ++ [length (heap w)]))) (st w))
       (heap w ++ [mkSection (Some ("section_" +:+ pretty now)) (Some "Nouvelle section")
                     (Some "Description de la nouvelle section") (Some false) (Some true)
                     (Some (Z.of_nat (length (tpl_sections et)) + 1)%Z)
                     (Some default_rag_query_template) (Some default_prompt_template)])
       (log w ++ [Toast "Section ajoutée" "Une nouvelle section a été ajoutée au template."
                    VariantDefault])).
Proof. intros He Hc. unfold addSection. by rewrite He, Hc. Qed.

Lemma deleteSection_ignored c index w :
  editedTemplate c = None \/ (exists et, editedTemplate c = Some et /\ tpl_is_custom et = false) ->
  deleteSection c index w = (Val tt, w).
Proof.
  unfold deleteSection. intros [->|(et & -> & ->)]; done.
Qed.

Lemma deleteSection_rejected c et index l s w :
  editedTemplate c = Some et ->
  tpl_is_custom et = true ->
  tpl_sections et !! index = Some l ->
  heap w !! l = Some s ->
  truthy_bool (sec_required s) = true ->
  deleteSection c index w
  = (Val tt,
     mkWorld (st w) (heap w)
       (log w ++ [Toast "Action impossible" "Impossible de supprimer une section obligatoire."
                    VariantDestructive])).
Proof.
  intros He Hc Hl Hs Hr. unfold deleteSection. rewrite He, Hc, Hl. simpl.
  unfold bind, deref. rewrite Hs, Hr. done.
Qed.

Lemma deleteSection_removed c et index l s w :
  editedTemplate c = Some et ->
  tpl_is_custom et = true ->
  tpl_sections et !! index = Some l ->
  heap w !! l = Some s ->
  truthy_bool (sec_required s) = false ->
  Forall (fun l => l < length (heap w))%nat (tpl_sections et) ->
  deleteSection c index w
  = (Val tt,
     mkWorld
       (upd_EditedTemplate (Some (with_sections et (delete index (tpl_sections et)))) (st w))
       (renumbered (heap w) (delete index (tpl_sections et)) 0)
       (log w ++ [Toast "Section supprimée" "La section a été supprimée du template."
                    VariantDefault])).
Proof.
  intros He Hc Hl Hs Hr Hv. unfold deleteSection. rewrite He, Hc, Hl. simpl.
  unfold bind at 1. unfold deref. rewrite Hs, Hr.
  unfold bind. rewrite renumber_run; [done|]. by apply Forall_delete.
Qed.

Lemma orders_app_new (h : list SectionObj) (ls : list nat) s :
  Forall (fun l => l < length h)%nat ls ->
  (fun l => (h ++ [s]) !! l ≫= sec_order) <$> ls = (fun l => h !! l ≫= sec_order) <$> ls.
Proof.
  intros Hv. apply Forall_fmap_ext. eapply Forall_impl; [exact Hv|].
  intros l Hl. simpl. by rewrite lookup_app_l.
Qed.

Lemma one_to_S n : one_to (S n) = one_to n ++ [Some (Z.of_nat n + 1)%Z].
Proof.
  unfold one_to. rewrite seq_S, fmap_app. simpl. do 3 f_equal. lia.
Qed.

(** C2, as the code has it: a deletion that removes a section leaves the
    order values 1..N; an addition appends a section whose order is the new
    number of sections and keeps the other order values, so that the result
    is 1..N when the values were 1..N-1 before. *)
Theorem order_after_add_and_delete c et h ss :
  editedTemplate c = Some et ->
  tpl_is_custom et = true ->
  read_all h (tpl_sections et) = Some ss ->
  (forall now, exists w' et',
      run (addSection c now) c h = (Val tt, w')
      /\ editedTemplate (st w') = Some et'
      /\ length (tpl_sections et') = S (length (tpl_sections et))
      /\ orders (heap w') et'
         = orders h et ++ [Some (Z.of_nat (length (tpl_sections et')))]
      /\ (contiguous h et -> contiguous (heap w') et'))
  /\ (forall index s,
        NoDup (tpl_sections et) ->
        ss !! index = Some s ->
        truthy_bool (sec_required s) = false ->
        exists w' et',
          run (deleteSection c index) c h = (Val tt, w')
          /\ editedTemplate (st w') = Some et'
          /\ tpl_sections et' = delete index (tpl_sections et)
          /\ contiguous (heap w') et').
Proof.
  intros He Hc Hss. pose proof (read_all_valid _ _ _ Hss) as Hv. split.
  - intros now. unfold run. rewrite (addSection_run c et now _ He Hc). simpl.
    eexists _, _. split; [reflexivity|]. split; [reflexivity|]. simpl.
    assert (orders (h ++ [mkSection (Some ("section_" +:+ pretty now))
                            (Some "Nouvelle section")
                            (Some "Description de la nouvelle section") (Some false)
                            (Some true) (Some (Z.of_nat (length (tpl_sections et)) + 1)%Z)
                            (Some default_rag_query_template)
                            (Some default_prompt_template)])
              (with_sections et (tpl_sections et ++ [length h]))
            = orders h et ++ [Some (Z.of_nat (length (tpl_sections et)) + 1)%Z]) as Ho.
    { unfold orders. simpl. rewrite fmap_app. f_equal; [by apply orders_app_new|].
      simpl. rewrite lookup_app_r by lia. by rewrite Nat.sub_diag. }
    rewrite length_app. simpl. rewrite Nat.add_1_r. split; [done|]. split.
    + by rewrite Ho, Nat2Z.inj_succ, Z.add_1_r.
    + unfold contiguous at 2. rewrite Ho. simpl. rewrite length_app. simpl.
      rewrite Nat.add_1_r, one_to_S. intros ->. done.
  - intros index s Hnd Hs Hr.
    assert (exists l, tpl_sections et !! index = Some l /\ h !! l = Some s) as (l & Hl & Hls).
    { apply mapM_Some_1 in Hss. eapply Forall2_lookup_r in Hss as (l & ? & ?); eauto. }
    unfold run.
    rewrite (deleteSection_removed c et index l s (mkWorld c h []) He Hc Hl Hls Hr Hv). simpl.
    eexists _, _. split; [reflexivity|]. split; [reflexivity|]. split; [reflexivity|].
    unfold contiguous, orders. simpl. rewrite renumbered_order.
    + apply one_to_seq.
    + eapply sublist_NoDup; [exact Hnd|]. apply sublist_delete.
    + by apply Forall_delete.
Qed.

Lemma order_after_add_and_delete_witness :
  (exists w' et',
      run (addSection state_42 1730000000000) state_42 sample_heap = (Val tt, w')
      /\ editedTemplate (st w') = Some et'
      /\ length (tpl_sections et') = 3%nat
      /\ orders (heap w') et'
         = orders sample_heap buffer_42 ++ [Some (Z.of_nat (length (tpl_sections et')))]
      /\ (contiguous sample_heap buffer_42 -> contiguous (heap w') et'))
  /\ (exists w' et',
        run (deleteSection state_42 1) state_42 sample_heap = (Val tt, w')
        /\ editedTemplate (st w') = Some et'
        /\ tpl_sections et' = [2%nat]
        /\ contiguous (heap w') et').
Proof.
  destruct (order_after_add_and_delete state_42 buffer_42 sample_heap
              [section_required; section_5] eq_refl eq_refl eq_refl) as [Hadd Hdel].
  split.
  - exact (Hadd 1730000000000%N).
  - apply (Hdel 1%nat section_5); [|reflexivity|reflexivity].
    apply (bool_decide_unpack _). vm_compute. reflexivity.
Defined.

(** C2, the claim as it is written fails: on a custom buffer whose order
    values are 1 and 5, an addition leaves 1, 5, 3. *)
Lemma addSection_orders_not_contiguous :
  exists et',
    editedTemplate (st (run (addSection state_42 1730000000000) state_42 sample_heap).2)
    = Some et'
    /\ orders (heap (run (addSection state_42 1730000000000) state_42 sample_heap).2) et'
       = [Some 1%Z; Some 5%Z; Some 3%Z]
    /\ ~ contiguous (heap (run (addSection state_42 1730000000000) state_42 sample_heap).2) et'.
Proof.
  eexists. split; [reflexivity|]. split; [reflexivity|].
  unfold contiguous. vm_compute. discriminate.
Qed.

(** ** Deleting a required section *)

(** C3, as the code has it: on a custom buffer the deletion of a required
    section changes nothing and shows the toast "Action impossible"; on a
    buffer that is not custom it changes nothing and shows nothing. *)
Theorem deleteSection_required c et h index l s :
  editedTemplate c = Some et ->
  tpl_sections et !! index = Some l ->
  h !! l = Some s ->
  sec_required s = Some true ->
  (tpl_is_custom et = true ->
   run (deleteSection c index) c h
   = (Val tt,
      mkWorld c h [Toast "Action impossible"
                     "Impossible de supprimer une section obligatoire."
                     VariantDestructive]))
  /\ (tpl_is_custom et = false ->
      run (deleteSection c index) c h = (Val tt, mkWorld c h [])).
Proof.
  intros He Hl Hs Hr. split; intros Hc; unfold run.
  - rewrite (deleteSection_rejected c et index l s (mkWorld c h []) He Hc Hl Hs); [done|].
    by rewrite Hr.
  - apply deleteSection_ignored. right. eauto.
Qed.

Lemma deleteSection_required_witness :
  run (deleteSection state_42 0) state_42 sample_heap
  = (Val tt,
     mkWorld state_42 sample_heap
       [Toast "Action impossible" "Impossible de supprimer une section obligatoire."
          VariantDestructive]).
Proof.
  exact (proj1 (deleteSection_required state_42 buffer_42 sample_heap 0 2 section_required
                  eq_refl eq_refl eq_refl eq_refl) eq_refl).
Defined.

(** C3, the claim as it is written fails: on the buffer of a default
    template the required section at index 0 stays, and no notification is
    produced. *)
Lemma deleteSection_required_silent :
  editedTemplate state_7 = Some buffer_7
  /\ required_at sample_heap buffer_7 0 = Some true
  /\ run (deleteSection state_7 0) state_7 sample_heap
     = (Val tt, mkWorld state_7 sample_heap []).
Proof. split; [reflexivity|]. split; reflexivity. Qed.

(** ** Validation before saving *)

Lemma validateSection_complete s : complete (validateSection s).
Proof. unfold complete. simpl. repeat split; eauto. Qed.

(** C4: the validation of [handleSave] is total and gives every optional
    field that is missing its fixed default; the request carries the
    validated sections, and the save succeeds whenever the backend answers
    with a success status and a body that parses. *)
Theorem handleSave_validation c et rs rl h ss :
  editedTemplate c = Some et ->
  read_all h (tpl_sections et) = Some ss ->
  (forall s,
      complete (validateSection s)
      /\ (sec_name s = None -> sec_name (validateSection s) = Some "Section sans nom")
      /\ (sec_description s = None ->
          sec_description (validateSection s) = Some "Description de la section")
      /\ (sec_required s = None -> sec_required (validateSection s) = Some false)
      /\ (sec_default_enabled s = None ->
          sec_default_enabled (validateSection s) = Some true)
      /\ (sec_order s = None -> sec_order (validateSection s) = Some 0%Z)
      /\ (sec_rag_query_template s = None ->
          sec_rag_query_template (validateSection s)
          = Some "informations sur {product_name} dans la catégorie {product_category}")
      /\ (sec_prompt_template s = None ->
          sec_prompt_template (validateSection s)
          = Some "Générer une section sur {product_name} en utilisant les informations suivantes: {client_data_context}"))
  /\ exists w' rest,
      run (handleSave c rs rl) c h = (Val tt, w')
      /\ log w'
         = Fetch (save_method (tpl_id et)) (save_url (tpl_id et))
             (Some (mkSaveBody (tpl_name et) (tpl_description et)
                      (validateSection <$> ss) (tpl_is_default et))) :: rest
      /\ (forall resp d,
            rs = Responded resp -> resp_ok resp = true -> resp_json resp = inr d ->
            success (st w') = Some "Template sauvegardé avec succès"
            /\ (forall ds, list_outcome rl = inr ds -> error (st w') = None))
      /\ (error (st w') <> None ->
          (exists msg, save_outcome rs = inl msg) \/ (exists msg, list_outcome rl = inl msg)).
Proof.
  intros He Hss. split.
  - intros s. split; [apply validateSection_complete|].
    unfold validateSection. simpl. repeat split; intros ->; reflexivity.
  - unfold run. destruct (save_outcome rs) as [msg|d] eqn:Hrs.
    + rewrite (handleSave_failed c et rs rl (mkWorld c h []) ss msg He Hss Hrs). simpl.
      eexists _, _. split; [reflexivity|]. split; [reflexivity|]. split.
      * intros resp d -> Hok Hd. simpl in Hrs. rewrite Hok, Hd in Hrs. discriminate.
      * eauto.
    + destruct (handleSave_saved c et rs rl (mkWorld c h []) ss d He Hss Hrs)
        as (s1 & hx & lx & -> & _ & Herr). simpl.
      eexists _, _. split; [reflexivity|]. split; [reflexivity|]. split.
      * intros resp d' -> Hok Hd. split; [reflexivity|].
        intros ds Hds. simpl. rewrite Herr, Hds. reflexivity.
      * simpl. rewrite Herr. destruct (list_outcome rl); [eauto|done].
Qed.

Lemma handleSave_validation_witness :
  exists w',
    run (handleSave state_42 (Responded (mkResponse 200 None (inr saved_42)))
           (NetworkError "Failed to fetch")) state_42 sample_heap = (Val tt, w')
    /\ success (st w') = Some "Template sauvegardé avec succès".
Proof.
  destruct (handleSave_validation state_42 buffer_42
              (Responded (mkResponse 200 None (inr saved_42)))
              (NetworkError "Failed to fetch") sample_heap
              [section_required; section_5] eq_refl eq_refl)
    as (_ & w' & rest & Hrun & _ & Hok & _).
  exists w'. split; [exact Hrun|].
  exact (proj1 (Hok _ saved_42 eq_refl eq_refl eq_refl)).
Defined.

(** ** Deleting a template *)

(** C6: [handleDelete] does nothing unless the active template is custom;
    when the delete request fails the list, the selection and the buffer
    stay as they were and an error is shown; when it succeeds the list is
    requested again and the selection and the buffer are cleared. *)
Theorem handleDelete_cases c rd rl h :
  (activeTemplate c = None
   \/ (exists a, activeTemplate c = Some a /\ tpl_is_custom a = false) ->
   run (handleDelete c rd rl) c h = (Val tt, mkWorld c h []))
  /\ (forall a,
        activeTemplate c = Some a ->
        tpl_is_custom a = true ->
        exists w',
          run (handleDelete c rd rl) c h = (Val tt, w')
          /\ ((exists msg, rd = NetworkError msg)
              \/ (exists resp, rd = Responded resp /\ resp_ok resp = false) ->
              templates (st w') = templates c
              /\ activeTemplate (st w') = activeTemplate c
              /\ editedTemplate (st w') = editedTemplate c
              /\ heap w' = h
              /\ is_Some (error (st w'))
              /\ log w'
                 = [Fetch DELETE_
                      ("http://127.0.0.1:8050/templates/" +:+ interpolate (tpl_id a)) None;
                    Toast "Erreur"
                      "Impossible de supprimer le template. Veuillez réessayer."
                      VariantDestructive])
          /\ (forall resp,
                rd = Responded resp -> resp_ok resp = true ->
                requests (log w')
                = [Fetch DELETE_
                     ("http://127.0.0.1:8050/templates/" +:+ interpolate (tpl_id a)) None;
                   Fetch GET_ "http://127.0.0.1:8050/templates" None]
                /\ activeTemplate (st w') = None
                /\ editedTemplate (st w') = None
                /\ (forall ds, list_outcome rl = inr ds ->
                    templates (st w') = place_all (length h) ds))).
Proof.
  split.
  - unfold run, handleDelete. intros [->|(a & -> & ->)]; reflexivity.
  - intros a Ha Hc. unfold run. destruct (delete_outcome rd) as [msg|] eqn:Hrd.
    + rewrite (handleDelete_failed c a rd rl (mkWorld c h []) msg Ha Hc Hrd). simpl.
      eexists. split; [reflexivity|]. split.
      * intros _. simpl. repeat split; eauto.
      * intros resp -> Hok. simpl in Hrd. rewrite Hok in Hrd. discriminate.
    + destruct (handleDelete_deleted c a rd rl (mkWorld c h []) Ha Hc Hrd)
        as (s1 & hx & lx & -> & Hlx & Ht). simpl in *.
      eexists. split; [reflexivity|]. split.
      * intros [(msg & ->)|(resp & -> & Hok)]; simpl in Hrd; [done|].
        rewrite Hok in Hrd. discriminate.
      * intros resp -> Hok. simpl. split.
        { unfold delete_request, list_request.
          change (?a :: ?b :: lx ++ ?t) with ([a; b] ++ lx ++ t).
          rewrite !requests_app, Hlx. reflexivity. }
        split; [reflexivity|]. split; [reflexivity|].
        intros ds Hds. rewrite Ht, Hds. reflexivity.
Qed.

Lemma handleDelete_cases_witness :
  exists w',
    run (handleDelete state_42 (Responded (mkResponse 204 None (inr tt)))
           (Responded (mkResponse 200 None (inr []))))
      state_42 sample_heap = (Val tt, w')
    /\ activeTemplate (st w') = None /\ editedTemplate (st w') = None
    /\ templates (st w') = [].
Proof.
  destruct (proj2 (handleDelete_cases state_42 (Responded (mkResponse 204 None (inr tt)))
                     (Responded (mkResponse 200 None (inr []))) sample_heap)
              custom_42 eq_refl eq_refl) as (w' & Hrun & _ & Hok).
  destruct (Hok _ eq_refl eq_refl) as (_ & Ha & He & Ht).
  exists w'. split; [exact Hrun|]. split; [exact Ha|]. split; [exact He|].
  exact (Ht [] eq_refl).
Defined.

(** ** Field-level edits *)

Lemma handleSectionChange_run c et index l s fv w :
  editedTemplate c = Some et ->
  tpl_sections et !! index = Some l ->
  heap w !! l = Some s ->
  handleSectionChange c index fv w
  = (Val tt,
     mkWorld
       (upd_EditedTemplate
          (Some (with_sections et (<[index := length (heap w)]> (tpl_sections et)))) (st w))
       (heap w ++ [set_field s fv])
       (log w)).
Proof.
  intros He Hl Hs. unfold handleSectionChange. rewrite He, Hl.
  unfold bind, deref. rewrite Hs. unfold alloc, array_set. simpl.
  apply lookup_lt_Some in Hl. apply Nat.ltb_lt in Hl. by rewrite Hl.
Qed.

Lemma read_field_set s fv : read_field (field_of fv) (set_field s fv) = Some fv.
Proof. by destruct fv. Qed.

Lemma read_field_other s fv f :
  f <> field_of fv -> read_field f (set_field s fv) = read_field f s.
Proof. by destruct fv, f. Qed.

Lemma handleSectionChange_appended c et index fv w :
  editedTemplate c = Some et ->
  index = length (tpl_sections et) ->
  handleSectionChange c index fv w
  = (Val tt,
     mkWorld
       (upd_EditedTemplate
          (Some (with_sections et (tpl_sections et ++ [length (heap w)]))) (st w))
       (heap w ++ [set_field empty_object fv])
       (log w)).
Proof.
  intros He ->. unfold handleSectionChange. rewrite He.
  rewrite (lookup_ge_None_2 (tpl_sections et) (length (tpl_sections et))) by lia.
  unfold bind, ret, alloc, array_set. simpl.
  by rewrite Nat.ltb_irrefl, Nat.eqb_refl.
Qed.

(** C9: a field-level edit sets the edit buffer and nothing else: the
    templates of the list, the active template and every object that
    existed are as before.  At an index of the section list it changes the
    named field of that section only: the other fields of the new object
    and the other sections are the old ones. *)
Theorem handleSectionChange_frame c et h index fv :
  editedTemplate c = Some et ->
  (forall w',
      run (handleSectionChange c index fv) c h = (Val tt, w') ->
      (exists et', st w' = upd_EditedTemplate (Some et') c)
      /\ templates (st w') = templates c
      /\ activeTemplate (st w') = activeTemplate c
      /\ log w' = []
      /\ (forall l0 x, h !! l0 = Some x -> heap w' !! l0 = Some x))
  /\ (forall l s,
        tpl_sections et !! index = Some l ->
        h !! l = Some s ->
        exists w' l',
          run (handleSectionChange c index fv) c h = (Val tt, w')
          /\ editedTemplate (st w')
             = Some (with_sections et (<[index := l']> (tpl_sections et)))
          /\ heap w' !! l' = Some (set_field s fv)
          /\ read_field (field_of fv) (set_field s fv) = Some fv
          /\ (forall f, f <> field_of fv ->
              read_field f (set_field s fv) = read_field f s)
          /\ (forall j, j <> index ->
              <[index := l']> (tpl_sections et) !! j = tpl_sections et !! j)).
Proof.
  intros He. split.
  - intros w'. unfold run.
    assert (forall s0 (w0 : World),
               w0 = mkWorld (upd_EditedTemplate (Some s0) c) (h ++ [set_field empty_object fv]) []
               \/ (exists s, w0 = mkWorld (upd_EditedTemplate (Some s0) c)
                                    (h ++ [set_field s fv]) []) ->
               (exists et', st w0 = upd_EditedTemplate (Some et') c)
               /\ templates (st w0) = templates c
               /\ activeTemplate (st w0) = activeTemplate c
               /\ log w0 = []
               /\ (forall l0 x, h !! l0 = Some x -> heap w0 !! l0 = Some x)) as Hframe.
    { intros s0 w0 Hw.
      assert (exists s, w0 = mkWorld (upd_EditedTemplate (Some s0) c) (h ++ [s]) [])
        as (s & ->) by (destruct Hw as [->|(s & ->)]; eauto).
      simpl. split; [eauto|]. repeat split.
      intros l0 x Hx. rewrite lookup_app_l; [done|]. by eapply lookup_lt_Some. }
    destruct (tpl_sections et !! index) as [l|] eqn:Hl.
    + destruct (h !! l) as [s|] eqn:Hs.
      * rewrite (handleSectionChange_run c et index l s fv (mkWorld c h []) He Hl Hs).
        intros [= <-]. eapply Hframe. right. eauto.
      * unfold handleSectionChange. rewrite He, Hl. unfold bind, deref. simpl.
        by rewrite Hs.
    + apply lookup_ge_None in Hl.
      destruct (decide (index = length (tpl_sections et))) as [Heq|Hne].
      * rewrite (handleSectionChange_appended c et index fv (mkWorld c h []) He Heq).
        intros [= <-]. eapply Hframe. left. reflexivity.
      * unfold handleSectionChange. rewrite He.
        rewrite (lookup_ge_None_2 (tpl_sections et) index) by lia.
        unfold bind, ret, alloc, array_set. simpl.
        destruct (index <? length (tpl_sections et))%nat eqn:E1;
          [apply Nat.ltb_lt in E1; lia|].
        destruct (index =? length (tpl_sections et))%nat eqn:E2;
          [apply Nat.eqb_eq in E2; lia|]. done.
  - intros l s Hl Hs. unfold run.
    rewrite (handleSectionChange_run c et index l s fv (mkWorld c h []) He Hl Hs). simpl.
    eexists _, _. split; [reflexivity|]. simpl. split; [reflexivity|]. split.
    { rewrite lookup_app_r by lia. by rewrite Nat.sub_diag. }
    split; [apply read_field_set|]. split; [intros f; apply read_field_other|].
    intros j Hj. by rewrite list_lookup_insert_ne.
Qed.

Lemma handleSectionChange_frame_witness :
  exists w' l',
    run (handleSectionChange state_42 1 (F_name "Présentation")) state_42 sample_heap
    = (Val tt, w')
    /\ editedTemplate (st w') = Some (with_sections buffer_42 [2%nat; l'])
    /\ heap w' !! l' = Some (set_field section_5 (F_name "Présentation"))
    /\ templates (st w') = [custom_42]
    /\ activeTemplate (st w') = Some custom_42.
Proof.
  destruct (handleSectionChange_frame state_42 buffer_42 sample_heap 1
              (F_name "Présentation") eq_refl) as [Hany Hat].
  destruct (Hat 3%nat section_5 eq_refl eq_refl) as (w' & l' & Hrun & He & Hl & _).
  destruct (Hany w' Hrun) as (_ & Ht & Ha & _).
  exists w', l'. split; [exact Hrun|]. split; [exact He|]. split; [exact Hl|].
  split; [exact Ht|exact Ha].
Defined.

(** ** Creating a template from the dialog *)

(** C10: with an empty list of templates and a name that is not blank, the
    [TypeError] of the missing base template is caught: the handler
    returns, the error message is set and a toast shown, and the active
    template and the edit buffer are as before. *)
Theorem handleCreateTemplate_no_base c h :
  templates c = [] ->
  String.eqb (trim (newTemplateName c)) "" = false ->
  exists w' msg,
    run (handleCreateTemplate c) c h = (Val tt, w')
    /\ st w' = upd_Error (Some ("Erreur lors de la création du template: " +:+ msg)) c
    /\ activeTemplate (st w') = activeTemplate c
    /\ editedTemplate (st w') = editedTemplate c
    /\ heap w' = h
    /\ log w' = [Toast "Erreur" "Impossible de créer le template. Veuillez réessayer."
                   VariantDestructive].
Proof.
  intros Ht Hn. unfold run, handleCreateTemplate, try_catch. rewrite Hn.
  unfold find_base. rewrite Ht. simpl. unfold bind.
  destruct (String.eqb (newTemplateDescription c) ""); simpl;
    eexists _, _; repeat split; reflexivity.
Qed.

Lemma handleCreateTemplate_no_base_witness :
  exists w' msg,
    run (handleCreateTemplate state_empty) state_empty [] = (Val tt, w')
    /\ st w' = upd_Error (Some ("Erreur lors de la création du template: " +:+ msg)) state_empty
    /\ activeTemplate (st w') = None
    /\ editedTemplate (st w') = None
    /\ heap w' = []
    /\ log w' = [Toast "Erreur" "Impossible de créer le template. Veuillez réessayer."
                   VariantDestructive].
Proof. exact (handleCreateTemplate_no_base state_empty [] eq_refl eq_refl). Defined.

(** ** Deep copies *)

(** A write to an object allocated later is invisible through older
    references. *)
Lemma sections_of_fresh_write h ext t l s' :
  Forall (fun l0 => l0 < length h)%nat (tpl_sections t) ->
  (length h <= l)%nat ->
  sections_of (<[l := s']> (h ++ ext)) t = sections_of h t.
Proof.
  intros Hv Hl. unfold sections_of. apply Forall_fmap_ext.
  eapply Forall_impl; [exact Hv|]. intros l0 Hl0. simpl in *.
  rewrite list_lookup_insert_ne by lia. by rewrite lookup_app_l.
Qed.

Lemma seq_fresh (n k : nat) : Forall (fun l => n <= l)%nat (seq n k).
Proof. apply Forall_seq. intros; lia. Qed.

Lemma sections_of_seq h ss ext t :
  tpl_sections t = seq (length h) (length ss) ->
  sections_of (h ++ ss ++ ext) t = Some <$> ss.
Proof.
  intros Ht. apply sections_of_read. rewrite Ht. apply read_all_seq.
Qed.

Lemma onDuplicateClick_run c et w ss :
  editedTemplate c = Some et ->
  read_all (heap w) (tpl_sections et) = Some ss ->
  let copy := mkTemplate (Some "new_template") ("Copie de " +:+ tpl_name et)
                (tpl_description et) (seq (length (heap w)) (length ss))
                (tpl_is_default et) true in
  onDuplicateClick c w
  = (Val tt,
     mkWorld (upd_EditedTemplate (Some copy) (upd_ActiveTemplate (Some copy) (st w)))
       (heap w ++ ss) (log w)).
Proof.
  intros He Hss. unfold onDuplicateClick. rewrite He.
  unfold bind. rewrite deep_copy_run, Hss. reflexivity.
Qed.

Lemma handleCreateTemplate_run c b w bs :
  String.eqb (trim (newTemplateName c)) "" = false ->
  find_base (templates c) (baseTemplateId c) = Some b ->
  read_all (heap w) (tpl_sections b) = Some bs ->
  let t := mkTemplate (Some "new_template") (newTemplateName c)
             (if negb (String.eqb (newTemplateDescription c) "")
              then newTemplateDescription c
              else "Template personnalisé basé sur " +:+ tpl_name b)
             (seq (length (heap w)) (length bs)) false true in
  handleCreateTemplate c w
  = (Val tt,
     mkWorld
       (upd_BaseTemplateId ""
          (upd_NewTemplateDescription ""
             (upd_NewTemplateName ""
                (upd_EditedTemplate (Some t)
                   (upd_ActiveTemplate (Some t) (upd_ShowCreateDialog false (st w)))))))
       (heap w ++ bs) (log w)).
Proof.
  intros Hn Hb Hbs. unfold handleCreateTemplate, try_catch. rewrite Hn, Hb.
  unfold bind. destruct (negb (String.eqb (newTemplateDescription c) ""));
    simpl; rewrite deref_all_run, Hbs, alloc_all_run; reflexivity.
Qed.

(** C7: the duplicate of a template that is not custom has the id
    new_template, the custom flag, the name prefixed with "Copie de ", and
    sections that are new objects with the contents of the original ones:
    writing to one of them changes no template that existed before.  The
    dialog builds its template the same way from the base template, and
    neither handler issues a request. *)
Theorem copies_are_deep c h :
  (forall et ss,
      duplicate_rendered c = true ->
      editedTemplate c = Some et ->
      read_all h (tpl_sections et) = Some ss ->
      exists copy,
        run (onDuplicateClick c) c h
        = (Val tt,
           mkWorld (upd_EditedTemplate (Some copy) (upd_ActiveTemplate (Some copy) c))
             (h ++ ss) [])
        /\ tpl_is_custom et = false
        /\ tpl_id copy = Some "new_template"
        /\ tpl_is_custom copy = true
        /\ tpl_name copy = "Copie de " +:+ tpl_name et
        /\ sections_of (h ++ ss) copy = sections_of h et
        /\ Forall (fun l => length h <= l)%nat (tpl_sections copy)
        /\ (forall l s' t,
              l ∈ tpl_sections copy ->
              Forall (fun l0 => l0 < length h)%nat (tpl_sections t) ->
              sections_of (<[l := s']> (h ++ ss)) t = sections_of h t))
  /\ (forall b bs,
        String.eqb (trim (newTemplateName c)) "" = false ->
        find_base (templates c) (baseTemplateId c) = Some b ->
        read_all h (tpl_sections b) = Some bs ->
        exists t s',
          run (handleCreateTemplate c) c h = (Val tt, mkWorld s' (h ++ bs) [])
          /\ activeTemplate s' = Some t
          /\ editedTemplate s' = Some t
          /\ templates s' = templates c
          /\ tpl_id t = Some "new_template"
          /\ tpl_is_custom t = true
          /\ tpl_name t = newTemplateName c
          /\ sections_of (h ++ bs) t = sections_of h b
          /\ Forall (fun l => length h <= l)%nat (tpl_sections t)
          /\ (forall l x t0,
                l ∈ tpl_sections t ->
                Forall (fun l0 => l0 < length h)%nat (tpl_sections t0) ->
                sections_of (<[l := x]> (h ++ bs)) t0 = sections_of h t0)).
Proof.
  split.
  - intros et ss Hr He Hss. unfold run.
    rewrite (onDuplicateClick_run c et (mkWorld c h []) ss He Hss). simpl.
    eexists. split; [reflexivity|]. simpl.
    split.
    { unfold duplicate_rendered in Hr. rewrite He in Hr.
      apply andb_true_iff in Hr as [_ Hr]. by apply negb_true_iff in Hr. }
    split; [reflexivity|]. split; [reflexivity|]. split; [reflexivity|]. split.
    { rewrite (sections_of_read h et ss Hss).
      rewrite <- (app_nil_r (h ++ ss)), <- app_assoc. by apply sections_of_seq. }
    split; [apply seq_fresh|].
    intros l s' t Hl Hv. apply sections_of_fresh_write; [done|].
    pose proof (seq_fresh (length h) (length ss)) as Hf.
    rewrite Forall_forall in Hf. by apply Hf.
  - intros b bs Hn Hb Hbs. unfold run.
    rewrite (handleCreateTemplate_run c b (mkWorld c h []) bs Hn Hb Hbs). simpl.
    eexists _, _. split; [reflexivity|]. simpl.
    split; [reflexivity|]. split; [reflexivity|]. split; [reflexivity|].
    split; [reflexivity|]. split; [reflexivity|]. split; [reflexivity|]. split.
    { rewrite (sections_of_read h b bs Hbs).
      rewrite <- (app_nil_r (h ++ bs)), <- app_assoc. by apply sections_of_seq. }
    split; [apply seq_fresh|].
    intros l x t0 Hl Hv. apply sections_of_fresh_write; [done|].
    pose proof (seq_fresh (length h) (length bs)) as Hf.
    rewrite Forall_forall in Hf. by apply Hf.
Qed.

Lemma copies_are_deep_witness :
  exists copy,
    run (onDuplicateClick state_7) state_7 sample_heap
    = (Val tt,
       mkWorld (upd_EditedTemplate (Some copy) (upd_ActiveTemplate (Some copy) state_7))
         (sample_heap ++ [section_required; section_5]) [])
    /\ tpl_id copy = Some "new_template"
    /\ tpl_name copy = "Copie de Standard"
    /\ sections_of (<[4%nat := section_5]> (sample_heap ++ [section_required; section_5]))
         default_7
       = sections_of sample_heap default_7.
Proof.
  destruct (proj1 (copies_are_deep state_7 sample_heap) buffer_7
              [section_required; section_5] eq_refl eq_refl eq_refl)
    as (copy & Hrun & _ & Hid & _ & Hname & _ & _ & Hframe).
  exists copy. split; [exact Hrun|]. split; [exact Hid|]. split; [exact Hname|].
  apply Hframe.
  - injection Hrun as <-. apply list_elem_of_In. simpl. auto.
  - apply Forall_forall. intros l0 Hl0. apply list_elem_of_In in Hl0. simpl in Hl0.
    destruct Hl0 as [<-|[<-|[]]]; simpl; lia.
Defined.

(** ** Listing the templates *)

(** The templates of the list keep the order of the answer. *)
Lemma place_all_names n ds : tpl_name <$> place_all n ds = td_name <$> ds.
Proof.
  revert n. induction ds as [|d ds IH]; intros n; csimpl; [done|]. by rewrite IH.
Qed.

Lemma place_all_ids n ds : tpl_id <$> place_all n ds = td_id <$> ds.
Proof.
  revert n. induction ds as [|d ds IH]; intros n; csimpl; [done|]. by rewrite IH.
Qed.

(** Every reference of a parsed template lies in the block the parse
    allocated. *)
Lemma place_all_bound n ds t :
  t ∈ place_all n ds ->
  Forall (fun l => l < n + length (concat (td_sections <$> ds)))%nat (tpl_sections t).
Proof.
  revert n. induction ds as [|d ds IH]; intros n Ht; simpl in Ht.
  - by apply elem_of_nil in Ht.
  - csimpl. rewrite length_app. apply elem_of_cons in Ht as [->|Ht].
    + simpl. apply Forall_seq. intros; lia.
    + apply IH in Ht. eapply Forall_impl; [exact Ht|]. intros l Hl. simpl in *. lia.
Qed.

(** C8: after a successful fetch of a non-empty list with no active
    template, the first template of the answer is active and the edit
    buffer is a copy of it made of new objects; after a successful fetch
    of an empty list nothing is selected and nothing is thrown. *)
Theorem fetchTemplates_success c h resp ds :
  resp_ok resp = true ->
  resp_json resp = inr ds ->
  exists w',
    run (fetchTemplates c (Responded resp)) c h = (Val tt, w')
    /\ tpl_id <$> templates (st w') = td_id <$> ds
    /\ error (st w') = None
    /\ (forall d ds',
          ds = d :: ds' ->
          activeTemplate c = None ->
          exists t0 copy,
            head (templates (st w')) = Some t0
            /\ activeTemplate (st w') = Some t0
            /\ editedTemplate (st w') = Some copy
            /\ tpl_id t0 = td_id d /\ tpl_name t0 = td_name d
            /\ sections_of (heap w') t0 = Some <$> td_sections d
            /\ copy = with_sections t0 (tpl_sections copy)
            /\ sections_of (heap w') copy = Some <$> td_sections d
            /\ (forall l, l ∈ tpl_sections copy ->
                forall t, t ∈ templates (st w') -> l ∉ tpl_sections t))
    /\ (ds = [] ->
        templates (st w') = []
        /\ activeTemplate (st w') = activeTemplate c
        /\ editedTemplate (st w') = editedTemplate c
        /\ heap w' = h).
Proof.
  intros Hok Hds. unfold run.
  assert (list_outcome (Responded resp) = inr ds) as Hr by (simpl; by rewrite Hok).
  destruct ds as [|d ds'].
  - rewrite (fetchTemplates_kept c _ (mkWorld c h []) [] Hr) by (by left). simpl.
    eexists. split; [reflexivity|]. simpl. split; [reflexivity|]. split; [reflexivity|].
    split; [discriminate|]. intros _. by rewrite app_nil_r.
  - destruct (activeTemplate c) as [a|] eqn:Ha.
    + rewrite (fetchTemplates_kept c _ (mkWorld c h []) _ Hr) by (right; congruence).
      eexists. split; [reflexivity|]. cbn [st templates upd_IsLoading upd_Templates
        upd_Error error]. split; [apply place_all_ids|]. split; [reflexivity|].
      split; [discriminate|discriminate].
    + rewrite (fetchTemplates_selected c _ (mkWorld c h []) d ds' Hr Ha).
      eexists. split; [reflexivity|]. cbn [st heap templates upd_IsLoading upd_Templates
        upd_Error error upd_EditedTemplate upd_ActiveTemplate activeTemplate
        editedTemplate]. split; [apply place_all_ids|]. split; [reflexivity|].
      split; [|discriminate].
      intros d0 ds0 [= <- <-] _. eexists _, _.
      split; [reflexivity|]. split; [reflexivity|]. split; [reflexivity|].
      split; [reflexivity|]. split; [reflexivity|]. split.
      { csimpl. rewrite <- !app_assoc. by apply sections_of_seq. }
      split; [reflexivity|]. split.
      { rewrite <- (app_nil_r (_ ++ td_sections d)), <- app_assoc.
        by apply sections_of_seq. }
      intros l Hl t Ht Hin.
      apply (place_all_bound (length h) (d :: ds')) in Ht.
      rewrite Forall_forall in Ht. apply Ht in Hin.
      cbn [tpl_sections with_sections] in Hl.
      apply elem_of_seq in Hl. rewrite length_app in Hl. lia.
Qed.

Lemma fetchTemplates_success_witness :
  exists w',
    run (fetchTemplates initial_state (Responded (mkResponse 200 None (inr [data_7]))))
      initial_state [] = (Val tt, w')
    /\ (exists t0 copy,
          activeTemplate (st w') = Some t0
          /\ editedTemplate (st w') = Some copy
          /\ tpl_id t0 = Some "default_7"
          /\ sections_of (heap w') copy = [Some section_required; Some section_5]).
Proof.
  destruct (fetchTemplates_success initial_state [] (mkResponse 200 None (inr [data_7]))
              [data_7] eq_refl eq_refl) as (w' & Hrun & _ & _ & Hsel & _).
  exists w'. split; [exact Hrun|].
  destruct (Hsel data_7 [] eq_refl eq_refl)
    as (t0 & copy & _ & Ha & He & Hid & _ & _ & _ & Hcopy & _).
  exists t0, copy. split; [exact Ha|]. split; [exact He|]. split; [exact Hid|]. exact Hcopy.
Defined.

(** ** The proxy handlers *)

Import Proxy.

Lemma post_handler_answers {Json : Type} url label :
  answers_post (@post_handler Json url label).
Proof.
  exists url, label. intros [data|e] axios_post; simpl; [|reflexivity].
  unfold post_handler. by destruct (axios_post url data).
Qed.

Lemma get_handler_answers {Json : Type} url label :
  answers_get (@get_handler Json url label).
Proof.
  exists url, label. intros axios_get. unfold get_handler. by destruct (axios_get url).
Qed.

(** C5, as the code has it: every proxy handler returns; when the calls
    resolve it answers with the data of the backend, and on a failure with
    status 500 and the object [{error, details, stack}] whose details are
    the message of the error, whatever it is. *)
Theorem proxy_handlers_answer (Json : Type) (env : option string) :
  Forall answers_post (@post_routes Json env)
  /\ answers_get (@TemplateRoute.GET Json env)
  /\ forall label e,
       details_of (@error_response Json label e) = Some (message e)
       /\ status (@error_response Json label e) = 500%nat.
Proof.
  split; [|split].
  - unfold post_routes.
    repeat (apply Forall_cons_2; [apply post_handler_answers|]). apply Forall_nil_2.
  - apply get_handler_answers.
  - intros label e. split; reflexivity.
Qed.

(** C5, the claim as it is written fails: an error whose message is empty
    gives an answer whose details are empty. *)
Lemma proxy_details_empty :
  status (@TemplateRoute.GET string None (fun _ => Rejected (mkError "" "AggregateError")))
  = 500%nat
  /\ details_of (@TemplateRoute.GET string None
                   (fun _ => Rejected (mkError "" "AggregateError")))
     = Some "".
Proof. split; reflexivity. Qed.

(** ** The sections of the edit buffer stay distinct objects *)

Lemma well_formed_read h t : well_formed h t -> is_Some (read_all h (tpl_sections t)).
Proof.
  intros [_ Hv]. apply mapM_is_Some. eapply Forall_impl; [exact Hv|].
  intros l Hl. simpl. by apply lookup_lt_is_Some_2.
Qed.

Lemma well_formed_block h ss ext t :
  tpl_sections t = seq (length h) (length ss) -> well_formed (h ++ ss ++ ext) t.
Proof.
  intros Ht. unfold well_formed. rewrite Ht. split; [apply NoDup_seq|].
  apply Forall_seq. intros j Hj. rewrite !length_app. lia.
Qed.

(** The copies made by [deep_copy] are well formed. *)
Lemma deep_copy_well_formed t w t' w' :
  deep_copy t w = (Val t', w') -> well_formed (heap w') t'.
Proof.
  rewrite deep_copy_run. destruct (read_all _ _) as [ss|]; [|done].
  intros [= <- <-]. simpl. rewrite <- (app_nil_r (heap w ++ ss)), <- app_assoc.
  by apply well_formed_block.
Qed.


(** ** Indices outside the section list *)

(** Deleting at an index with no section throws, outside any [try]. *)
Example deleteSection_out_of_range :
  (run (deleteSection state_42 2) state_42 sample_heap).1
  = Exn "Cannot read properties of undefined (reading 'required')".
Proof. reflexivity. Qed.

(** Editing at the length of the list appends an object with the one
    field; editing further out would leave holes in the array. *)
Example handleSectionChange_at_length :
  let w' := (run (handleSectionChange state_42 2 (F_order 9)) state_42 sample_heap).2 in
  sections_of (heap w') <$> editedTemplate (st w')
  = Some [Some section_required; Some section_5;
          Some (mkSection None None None None None (Some 9%Z) None None)].
Proof. reflexivity. Qed.

Example handleSectionChange_beyond_length :
  (run (handleSectionChange state_42 3 (F_order 9)) state_42 sample_heap).1 = Untyped.
Proof. reflexivity. Qed.

(** * Further properties of the component *)

(** ** Switching the active template *)

Lemma handleTemplateChange_run template w ss :
  read_all (heap w) (tpl_sections template) = Some ss ->
  handleTemplateChange template w
  = (Val tt,
     mkWorld
       (upd_EditedTemplate
          (Some (with_sections template (seq (length (heap w)) (length ss))))
          (upd_ActiveTemplate (Some template) (st w)))
       (heap w ++ ss) (log w)).
Proof.
  intros Hss. unfold handleTemplateChange, bind. simpl.
  rewrite deep_copy_run. simpl. by rewrite Hss.
Qed.

(** X1: Selecting a template makes it active and replaces the edit buffer,
    whatever it held, by a copy made of new objects with the same contents;
    nothing is asked, shown or requested, and no object is written. *)
Theorem handleTemplateChange_switch c h template ss :
  read_all h (tpl_sections template) = Some ss ->
  exists copy,
    run (handleTemplateChange template) c h
    = (Val tt,
       mkWorld (upd_EditedTemplate (Some copy) (upd_ActiveTemplate (Some template) c))
         (h ++ ss) [])
    /\ copy = with_sections template (tpl_sections copy)
    /\ sections_of (h ++ ss) copy = sections_of h template
    /\ well_formed (h ++ ss) copy
    /\ Forall (fun l => length h <= l)%nat (tpl_sections copy)
    /\ (forall l, l ∈ tpl_sections copy -> l ∉ tpl_sections template).
Proof.
  intros Hss. unfold run.
  rewrite (handleTemplateChange_run template (mkWorld c h []) ss Hss). simpl.
  eexists. split; [reflexivity|]. simpl. split; [reflexivity|]. split.
  { rewrite (sections_of_read h template ss Hss).
    rewrite <- (app_nil_r (h ++ ss)), <- app_assoc. by apply sections_of_seq. }
  split.
  { rewrite <- (app_nil_r (h ++ ss)), <- app_assoc. by apply well_formed_block. }
  split; [apply seq_fresh|].
  intros l Hl Hin. apply elem_of_seq in Hl.
  apply read_all_valid in Hss. rewrite Forall_forall in Hss. apply Hss in Hin. lia.
Qed.

Lemma handleTemplateChange_switch_witness :
  exists copy,
    run (handleTemplateChange default_7) state_42 sample_heap
    = (Val tt,
       mkWorld (upd_EditedTemplate (Some copy) (upd_ActiveTemplate (Some default_7) state_42))
         (sample_heap ++ [section_required; section_5]) [])
    /\ sections_of (sample_heap ++ [section_required; section_5]) copy
       = sections_of sample_heap default_7.
Proof.
  destruct (handleTemplateChange_switch state_42 sample_heap default_7
              [section_required; section_5] eq_refl)
    as (copy & Hrun & _ & Hs & _).
  exists copy. split; [exact Hrun|exact Hs].
Defined.

(** ** Listing the templates, the other cases *)

(** X2: A failed listing changes neither the list nor the selection nor the
    buffer: it sets the error message, shows one toast and ends the
    loading.  For a status outside 200-299 the message repeats its prefix,
    since the handler wraps the error it has thrown itself. *)
Theorem fetchTemplates_failure c h r msg :
  list_outcome r = inl msg ->
  run (fetchTemplates c r) c h
  = (Val tt,
     mkWorld
       (upd_IsLoading false
          (upd_Error (Some ("Erreur lors du chargement des templates: " +:+ msg)) c))
       h
       [Fetch GET_ "http://127.0.0.1:8050/templates" None;
        Toast "Erreur" "Impossible de charger les templates. Veuillez réessayer."
          VariantDestructive])
  /\ (forall m, r = NetworkError m -> msg = m)
  /\ (forall resp, r = Responded resp -> resp_ok resp = false ->
      msg = "Erreur lors du chargement des templates: " +:+ pretty (resp_status resp))
  /\ (forall resp, r = Responded resp -> resp_ok resp = true -> resp_json resp = inl msg).
Proof.
  intros Hr. split.
  - unfold run. by rewrite (fetchTemplates_failed c r (mkWorld c h []) msg Hr).
  - split; [|split].
    + intros m ->. simpl in Hr. congruence.
    + intros resp -> Hok. simpl in Hr. rewrite Hok in Hr. congruence.
    + intros resp -> Hok. simpl in Hr. by rewrite Hok in Hr.
Qed.

Lemma fetchTemplates_failure_witness :
  run (fetchTemplates state_42 (Responded (mkResponse 503 None (inr [])))) state_42 sample_heap
  = (Val tt,
     mkWorld
       (upd_IsLoading false
          (upd_Error
             (Some "Erreur lors du chargement des templates: Erreur lors du chargement des templates: 503")
             state_42))
       sample_heap
       [Fetch GET_ "http://127.0.0.1:8050/templates" None;
        Toast "Erreur" "Impossible de charger les templates. Veuillez réessayer."
          VariantDestructive]).
Proof.
  exact (proj1 (fetchTemplates_failure state_42 sample_heap
                  (Responded (mkResponse 503 None (inr [])))
                  "Erreur lors du chargement des templates: 503" eq_refl)).
Defined.


(** X4: With a template already active, a listing never changes the selection
    or the edit buffer, whatever the answer: it can only replace the list. *)
Theorem fetchTemplates_keeps_selection c h r a :
  activeTemplate c = Some a ->
  exists w',
    run (fetchTemplates c r) c h = (Val tt, w')
    /\ activeTemplate (st w') = Some a
    /\ editedTemplate (st w') = editedTemplate c
    /\ (forall ds, list_outcome r = inr ds ->
        templates (st w') = place_all (length h) ds)
    /\ (forall msg, list_outcome r = inl msg -> templates (st w') = templates c).
Proof.
  intros Ha. unfold run. destruct (list_outcome r) as [msg|ds] eqn:Hr.
  - rewrite (fetchTemplates_failed c r (mkWorld c h []) msg Hr). simpl.
    eexists. split; [reflexivity|]. simpl. repeat split; try done.
  - rewrite (fetchTemplates_kept c r (mkWorld c h []) ds Hr) by (right; congruence).
    eexists. split; [reflexivity|]. cbn [st heap log upd_IsLoading upd_Templates
      upd_Error activeTemplate editedTemplate templates].
    repeat split; try done. by intros ds' [= <-].
Qed.

Lemma fetchTemplates_keeps_selection_witness :
  exists w',
    run (fetchTemplates state_42 (Responded (mkResponse 200 None (inr [data_7]))))
      state_42 sample_heap = (Val tt, w')
    /\ activeTemplate (st w') = Some custom_42
    /\ editedTemplate (st w') = Some buffer_42.
Proof.
  destruct (fetchTemplates_keeps_selection state_42 sample_heap
              (Responded (mkResponse 200 None (inr [data_7]))) custom_42 eq_refl)
    as (w' & Hrun & Ha & He & _).
  exists w'. split; [exact Hrun|]. split; [exact Ha|exact He].
Defined.

(** ** Saving, the other cases *)

(** X5: A failed save changes neither the list nor the selection nor the
    buffer nor any object: it sets the error message, clears the success
    message, releases the busy flag, and does not ask for the list again. *)
Theorem handleSave_failure c et rs rl h ss msg :
  editedTemplate c = Some et ->
  read_all h (tpl_sections et) = Some ss ->
  save_outcome rs = inl msg ->
  exists w',
    run (handleSave c rs rl) c h = (Val tt, w')
    /\ templates (st w') = templates c
    /\ activeTemplate (st w') = activeTemplate c
    /\ editedTemplate (st w') = Some et
    /\ heap w' = h
    /\ error (st w') = Some ("Erreur lors de la sauvegarde: " +:+ msg)
    /\ success (st w') = None
    /\ isSaving (st w') = false
    /\ requests (log w') = [save_request et ss]
    /\ (forall resp, rs = Responded resp -> resp_ok resp = false ->
        msg = "Erreur lors de la sauvegarde: " +:+ pretty (resp_status resp) +:+ " - "
              +:+ defined_or (resp_text resp) "Pas de détails disponibles").
Proof.
  intros He Hss Hrs. unfold run.
  rewrite (handleSave_failed c et rs rl (mkWorld c h []) ss msg He Hss Hrs). simpl.
  eexists. split; [reflexivity|]. simpl. repeat split; try done.
  intros resp -> Hok. simpl in Hrs. rewrite Hok in Hrs. congruence.
Qed.

Lemma handleSave_failure_witness :
  exists w',
    run (handleSave state_42 (Responded (mkResponse 422 None (inr saved_42)))
           (NetworkError "Failed to fetch")) state_42 sample_heap = (Val tt, w')
    /\ editedTemplate (st w') = Some buffer_42
    /\ error (st w')
       = Some "Erreur lors de la sauvegarde: Erreur lors de la sauvegarde: 422 - Pas de détails disponibles"
    /\ requests (log w') = [save_request buffer_42 [section_required; section_5]].
Proof.
  destruct (handleSave_failure state_42 buffer_42
              (Responded (mkResponse 422 None (inr saved_42)))
              (NetworkError "Failed to fetch") sample_heap [section_required; section_5]
              "Erreur lors de la sauvegarde: 422 - Pas de détails disponibles"
              eq_refl eq_refl eq_refl)
    as (w' & Hrun & _ & _ & He & _ & Herr & _ & _ & Hreq & _).
  exists w'. split; [exact Hrun|]. split; [exact He|]. split; [exact Herr|exact Hreq].
Defined.

(** X6: After a successful save the active template is the template the
    backend returned, custom exactly when its id starts with custom_
    (whatever flag the backend sent); the buffer is a copy of it made of
    other objects; the list has been requested once more. *)
Theorem handleSave_success c et rs rl h ss d :
  editedTemplate c = Some et ->
  read_all h (tpl_sections et) = Some ss ->
  save_outcome rs = inr d ->
  exists w' saved copy,
    run (handleSave c rs rl) c h = (Val tt, w')
    /\ activeTemplate (st w') = Some saved
    /\ editedTemplate (st w') = Some copy
    /\ tpl_id saved = td_id d
    /\ tpl_name saved = td_name d
    /\ (tpl_is_custom saved = true
        <-> exists i, td_id d = Some i /\ startsWith i "custom_" = true)
    /\ copy = with_sections saved (tpl_sections copy)
    /\ sections_of (heap w') saved = Some <$> td_sections d
    /\ sections_of (heap w') copy = Some <$> td_sections d
    /\ (forall l, l ∈ tpl_sections copy -> l ∉ tpl_sections saved)
    /\ success (st w') = Some "Template sauvegardé avec succès"
    /\ isSaving (st w') = false
    /\ requests (log w')
       = [save_request et ss; Fetch GET_ "http://127.0.0.1:8050/templates" None].
Proof.
  intros He Hss Hrs. unfold run.
  destruct (handleSave_saved c et rs rl (mkWorld c h []) ss d He Hss Hrs)
    as (s1 & hx & lx & -> & Hlx & _). simpl.
  eexists _, _, _. split; [reflexivity|]. simpl.
  split; [reflexivity|]. split; [reflexivity|]. split; [reflexivity|].
  split; [reflexivity|]. split.
  { unfold saved_template. simpl. destruct (td_id d) as [i|]; simpl.
    - split.
      + intros H. apply andb_true_iff in H as [_ H]. exists i. by split.
      + intros (j & [= <-] & Hj). rewrite Hj, andb_true_r.
        destruct i; [discriminate Hj|done].
    - split; [done|]. intros (j & ? & _). done. }
  split; [reflexivity|]. split.
  { rewrite <- !app_assoc. by apply sections_of_seq. }
  split.
  { rewrite <- (app_nil_r (_ ++ td_sections d)), <- app_assoc.
    by apply sections_of_seq. }
  split.
  { intros l Hl Hin. apply elem_of_seq in Hl. apply elem_of_seq in Hin.
    rewrite !length_app in Hl. lia. }
  split; [reflexivity|]. split; [reflexivity|].
  change (?a :: ?b :: lx ++ ?t) with ([a; b] ++ lx ++ t).
  rewrite !requests_app, Hlx. reflexivity.
Qed.

Lemma handleSave_success_witness :
  exists w' saved copy,
    run (handleSave state_42 (Responded (mkResponse 200 None (inr saved_42)))
           (NetworkError "Failed to fetch")) state_42 sample_heap = (Val tt, w')
    /\ activeTemplate (st w') = Some saved
    /\ editedTemplate (st w') = Some copy
    /\ tpl_id saved = Some "custom_42"
    /\ sections_of (heap w') copy
       = [Some (validateSection section_required); Some (validateSection section_5)].
Proof.
  destruct (handleSave_success state_42 buffer_42
              (Responded (mkResponse 200 None (inr saved_42)))
              (NetworkError "Failed to fetch") sample_heap [section_required; section_5]
              saved_42 eq_refl eq_refl eq_refl)
    as (w' & saved & copy & Hrun & Ha & He & Hid & _ & _ & _ & _ & Hc & _).
  exists w', saved, copy. split; [exact Hrun|]. split; [exact Ha|]. split; [exact He|].
  split; [exact Hid|exact Hc].
Defined.

(** ** The validation of a section *)



(** ** Editing, then saving *)

(** The request of a save that follows other effects. *)
Lemma handleSave_log c et rs rl w ss :
  editedTemplate c = Some et ->
  read_all (heap w) (tpl_sections et) = Some ss ->
  exists rest, log (handleSave c rs rl w).2 = log w ++ save_request et ss :: rest.
Proof.
  intros He Hss. destruct (save_outcome rs) as [msg|d] eqn:Hrs.
  - rewrite (handleSave_failed c et rs rl w ss msg He Hss Hrs). simpl. eauto.
  - destruct (handleSave_saved c et rs rl w ss d He Hss Hrs)
      as (s1 & hx & lx & -> & _ & _). simpl. eauto.
Qed.

(** X8: Saving the duplicate of a template creates: the request is a POST to
    the collection, under the name "Copie de ..." and with the validated
    sections of the original. *)
Theorem duplicate_then_save c h et ss rs rl :
  duplicate_rendered c = true ->
  editedTemplate c = Some et ->
  read_all h (tpl_sections et) = Some ss ->
  exists rest,
    log (then_run (run (onDuplicateClick c) c h) (fun c' => handleSave c' rs rl)).2
    = Fetch POST_ "http://127.0.0.1:8050/templates"
        (Some (mkSaveBody ("Copie de " +:+ tpl_name et) (tpl_description et)
                 (validateSection <$> ss) (tpl_is_default et))) :: rest.
Proof.
  intros _ He Hss. unfold run.
  rewrite (onDuplicateClick_run c et (mkWorld c h []) ss He Hss).
  cbn [then_run st heap log].
  match goal with |- context [handleSave ?c' rs rl ?w] =>
    destruct (handleSave_log c' (mkTemplate (Some "new_template")
                ("Copie de " +:+ tpl_name et) (tpl_description et)
                (seq (length h) (length ss)) (tpl_is_default et) true) rs rl w ss)
      as (rest & ->) end.
  - reflexivity.
  - simpl. rewrite <- (app_nil_r (h ++ ss)), <- app_assoc. apply read_all_seq.
  - simpl. eauto.
Qed.

Lemma duplicate_then_save_witness :
  exists rest,
    log (then_run (run (onDuplicateClick state_7) state_7 sample_heap)
           (fun c' => handleSave c' (NetworkError "Failed to fetch")
                        (NetworkError "Failed to fetch"))).2
    = Fetch POST_ "http://127.0.0.1:8050/templates"
        (Some (mkSaveBody "Copie de Standard" "Modèle standard"
                 [validateSection section_required; validateSection section_5] true))
      :: rest.
Proof.
  exact (duplicate_then_save state_7 sample_heap buffer_7 [section_required; section_5]
           (NetworkError "Failed to fetch") (NetworkError "Failed to fetch")
           eq_refl eq_refl eq_refl).
Defined.

(** X9: Saving the template built by the dialog creates too: a POST to the
    collection under the entered name, with the entered description or,
    when it is empty, the one generated from the name of the base. *)
Theorem create_then_save c h b bs rs rl :
  String.eqb (trim (newTemplateName c)) "" = false ->
  find_base (templates c) (baseTemplateId c) = Some b ->
  read_all h (tpl_sections b) = Some bs ->
  exists rest,
    log (then_run (run (handleCreateTemplate c) c h) (fun c' => handleSave c' rs rl)).2
    = Fetch POST_ "http://127.0.0.1:8050/templates"
        (Some (mkSaveBody (newTemplateName c)
                 (if String.eqb (newTemplateDescription c) ""
                  then "Template personnalisé basé sur " +:+ tpl_name b
                  else newTemplateDescription c)
                 (validateSection <$> bs) false)) :: rest.
Proof.
  intros Hn Hb Hbs. unfold run.
  rewrite (handleCreateTemplate_run c b (mkWorld c h []) bs Hn Hb Hbs).
  cbn [then_run st heap log].
  match goal with |- context [handleSave ?c' rs rl ?w] =>
    destruct (handleSave_log c' (mkTemplate (Some "new_template") (newTemplateName c)
                (if negb (String.eqb (newTemplateDescription c) "")
                 then newTemplateDescription c
                 else "Template personnalisé basé sur " +:+ tpl_name b)
                (seq (length h) (length bs)) false true) rs rl w bs)
      as (rest & ->) end.
  - reflexivity.
  - simpl. rewrite <- (app_nil_r (h ++ bs)), <- app_assoc. apply read_all_seq.
  - simpl. exists rest. unfold save_request. simpl.
    by destruct (String.eqb (newTemplateDescription c) "").
Qed.

Lemma create_then_save_witness :
  exists rest,
    log (then_run (run (handleCreateTemplate state_dialog) state_dialog sample_heap)
           (fun c' => handleSave c' (NetworkError "Failed to fetch")
                        (NetworkError "Failed to fetch"))).2
    = Fetch POST_ "http://127.0.0.1:8050/templates"
        (Some (mkSaveBody "Fiche mobilier" "Template personnalisé basé sur Standard"
                 [validateSection section_required; validateSection section_5] false))
      :: rest.
Proof.
  exact (create_then_save state_dialog sample_heap default_7 [section_required; section_5]
           (NetworkError "Failed to fetch") (NetworkError "Failed to fetch")
           eq_refl eq_refl eq_refl).
Defined.




(** X11: The name and the description typed in the card change the buffer only,
    keep its section objects, and are what the save that follows sends. *)
Theorem rename_then_save c h et ss name description rs rl :
  editedTemplate c = Some et ->
  read_all h (tpl_sections et) = Some ss ->
  exists w1 et1,
    then_run (run (onTemplateNameChange c name) c h)
      (fun c' => onTemplateDescriptionChange c' description) = (Val tt, w1)
    /\ st w1 = upd_EditedTemplate (Some et1) c
    /\ heap w1 = h /\ log w1 = []
    /\ tpl_sections et1 = tpl_sections et
    /\ tpl_id et1 = tpl_id et
    /\ exists rest,
        log (handleSave (st w1) rs rl w1).2
        = Fetch (save_method (tpl_id et)) (save_url (tpl_id et))
            (Some (mkSaveBody name description (validateSection <$> ss)
                     (tpl_is_default et))) :: rest.
Proof.
  intros He Hss. unfold run, onTemplateNameChange. rewrite He. simpl.
  unfold onTemplateDescriptionChange. simpl.
  eexists _, _. split; [reflexivity|]. simpl. split; [reflexivity|].
  split; [reflexivity|]. split; [reflexivity|]. split; [reflexivity|].
  split; [reflexivity|].
  match goal with |- context [handleSave ?c' rs rl ?w] =>
    destruct (handleSave_log c' (mkTemplate (tpl_id et) name description
                (tpl_sections et) (tpl_is_default et) (tpl_is_custom et)) rs rl w ss)
      as (rest & ->) end; [reflexivity|exact Hss|].
  simpl. eauto.
Qed.

Lemma rename_then_save_witness :
  exists w1 rest,
    then_run (run (onTemplateNameChange state_42 "Fiche mobilier") state_42 sample_heap)
      (fun c' => onTemplateDescriptionChange c' "Pour le mobilier") = (Val tt, w1)
    /\ log (handleSave (st w1) (NetworkError "Failed to fetch")
              (NetworkError "Failed to fetch") w1).2
       = Fetch PUT_ "http://127.0.0.1:8050/templates/custom_42"
           (Some (mkSaveBody "Fiche mobilier" "Pour le mobilier"
                    [validateSection section_required; validateSection section_5] false))
         :: rest.
Proof.
  destruct (rename_then_save state_42 sample_heap buffer_42 [section_required; section_5]
              "Fiche mobilier" "Pour le mobilier" (NetworkError "Failed to fetch")
              (NetworkError "Failed to fetch") eq_refl eq_refl)
    as (w1 & et1 & Hrun & _ & _ & _ & _ & _ & rest & Hlog).
  exists w1, rest. split; [exact Hrun|exact Hlog].
Defined.

(** ** The dialog, the other cases *)

(** X12: A name that is empty or blank is refused before anything else: one
    toast, no error banner, the dialog and every state variable as they
    were, and no failure even when there is no template at all. *)
Theorem handleCreateTemplate_blank_name c h :
  String.eqb (trim (newTemplateName c)) "" = true ->
  run (handleCreateTemplate c) c h
  = (Val tt,
     mkWorld c h [Toast "Erreur" "Le nom du template est requis." VariantDestructive]).
Proof.
  intros Hn. unfold run, handleCreateTemplate, try_catch. by rewrite Hn.
Qed.

Lemma handleCreateTemplate_blank_name_witness :
  run (handleCreateTemplate state_blank) state_blank []
  = (Val tt,
     mkWorld state_blank [] [Toast "Erreur" "Le nom du template est requis."
                               VariantDestructive]).
Proof. exact (handleCreateTemplate_blank_name state_blank [] eq_refl). Defined.

Lemma find_Some_first {A} (P : A -> bool) (l : list A) x :
  List.find P l = Some x ->
  exists i, l !! i = Some x /\ P x = true /\ forall j y, (j < i)%nat -> l !! j = Some y -> P y = false.
Proof.
  induction l as [|a l IH]; simpl; [done|].
  destruct (P a) eqn:Ha.
  - intros [= <-]. exists 0%nat. repeat split; [done|]. intros j y Hj. lia.
  - intros Hf. destruct (IH Hf) as (i & Hi & Hx & Hlt).
    exists (S i). repeat split; [done|done|].
    intros [|j] y Hj Hy; simpl in Hy; [by injection Hy as <-|].
    eapply Hlt; [|exact Hy]. lia.
Qed.

Lemma find_None_all {A} (P : A -> bool) (l : list A) :
  List.find P l = None -> forall x, x ∈ l -> P x = false.
Proof.
  intros H x Hx. apply list_elem_of_In in Hx.
  by apply (List.find_none P l H x).
Qed.

(** X13: The base of the new template is the first template of the list whose
    id is the chosen one, and the first template of the list when no id is
    chosen or none matches; the new template takes the entered name, is
    both the active template and the edit buffer, and the dialog is closed
    with its three fields emptied. *)
Theorem handleCreateTemplate_base c h t0 ts :
  String.eqb (trim (newTemplateName c)) "" = false ->
  templates c = t0 :: ts ->
  (forall t, t ∈ templates c -> is_Some (read_all h (tpl_sections t))) ->
  exists b t w',
    run (handleCreateTemplate c) c h = (Val tt, w')
    /\ ((exists i, templates c !! i = Some b
                   /\ tpl_id b = Some (baseTemplateId c)
                   /\ forall j t', (j < i)%nat -> templates c !! j = Some t' ->
                                   tpl_id t' <> Some (baseTemplateId c))
        \/ (b = t0 /\ forall t', t' ∈ templates c -> tpl_id t' <> Some (baseTemplateId c)))
    /\ activeTemplate (st w') = Some t
    /\ editedTemplate (st w') = Some t
    /\ tpl_name t = newTemplateName c
    /\ tpl_description t
       = (if String.eqb (newTemplateDescription c) ""
          then "Template personnalisé basé sur " +:+ tpl_name b
          else newTemplateDescription c)
    /\ sections_of (heap w') t = sections_of h b
    /\ tpl_is_default t = false
    /\ showCreateDialog (st w') = false
    /\ newTemplateName (st w') = ""
    /\ newTemplateDescription (st w') = ""
    /\ baseTemplateId (st w') = ""
    /\ templates (st w') = templates c
    /\ log w' = [].
Proof.
  intros Hn Ht Hwf.
  assert (forall i t, match tpl_id t with
                      | Some j => String.eqb j i
                      | None => false
                      end = true <-> tpl_id t = Some i) as Hid.
  { intros i t. destruct (tpl_id t) as [j|]; [|split; done].
    rewrite String.eqb_eq. split; [by intros ->|by intros [= ->]]. }
  assert (exists b, find_base (templates c) (baseTemplateId c) = Some b
            /\ ((exists i, templates c !! i = Some b
                           /\ tpl_id b = Some (baseTemplateId c)
                           /\ forall j t', (j < i)%nat -> templates c !! j = Some t' ->
                                           tpl_id t' <> Some (baseTemplateId c))
                \/ (b = t0 /\ forall t', t' ∈ templates c ->
                                         tpl_id t' <> Some (baseTemplateId c))))
    as (b & Hb & Hchoice).
  { unfold find_base. destruct (List.find _ (templates c)) as [b|] eqn:Hf.
    - exists b. split; [done|]. left.
      apply find_Some_first in Hf as (i & Hi & Hp & Hlt).
      exists i. split; [done|]. split; [by apply Hid|].
      intros j t' Hj Ht' Heq. apply Hid in Heq. rewrite (Hlt j t' Hj Ht') in Heq. done.
    - exists t0. rewrite Ht. split; [done|]. right. split; [done|].
      intros t' Hin Heq. rewrite <- Ht in Hin.
      apply Hid in Heq. by rewrite (find_None_all _ _ Hf t' Hin) in Heq. }
  assert (b ∈ templates c) as Hin.
  { destruct Hchoice as [(i & Hi & _)|[-> _]].
    - by eapply list_elem_of_lookup_2.
    - rewrite Ht. apply list_elem_of_here. }
  destruct (Hwf b Hin) as [bs Hbs].
  exists b. unfold run.
  rewrite (handleCreateTemplate_run c b (mkWorld c h []) bs Hn Hb Hbs). simpl.
  eexists _, _. split; [reflexivity|]. simpl.
  split; [exact Hchoice|]. split; [reflexivity|]. split; [reflexivity|].
  split; [reflexivity|]. split.
  { by destruct (String.eqb (newTemplateDescription c) ""). }
  split.
  { rewrite (sections_of_read h b bs Hbs).
    rewrite <- (app_nil_r (h ++ bs)), <- app_assoc. by apply sections_of_seq. }
  repeat split.
Qed.

Lemma handleCreateTemplate_base_witness :
  exists t w',
    run (handleCreateTemplate state_choice) state_choice sample_heap = (Val tt, w')
    /\ editedTemplate (st w') = Some t
    /\ tpl_description t = "Template personnalisé basé sur Fiche courte"
    /\ sections_of (heap w') t = [Some section_5; Some section_required].
Proof.
  destruct (handleCreateTemplate_base state_choice sample_heap default_7 [custom_42; custom_43]
              eq_refl eq_refl) as (b & t & w' & Hrun & Hchoice & _ & He & _ & Hd & Hs & _).
  { intros t Ht. apply list_elem_of_In in Ht. simpl in Ht.
    destruct Ht as [<-|[<-|[<-|[]]]]; eexists; reflexivity. }
  assert (b = custom_43) as ->.
  { destruct Hchoice as [(i & Hi & Hid & _)|[_ Hno]].
    - destruct i as [|[|[|i]]]; simpl in Hi; try discriminate;
        injection Hi as <-; try discriminate Hid. reflexivity.
    - exfalso. apply (Hno custom_43); [|reflexivity].
      apply list_elem_of_In. simpl. auto. }
  exists t, w'. split; [exact Hrun|]. split; [exact He|]. split; [exact Hd|exact Hs].
Defined.

(** ** What a deletion writes *)

Lemma with_order_fields s v f :
  f <> order_ -> read_field f (with_order s v) = read_field f s.
Proof. by destruct f. Qed.

(** Renumbering leaves in every cell the object it held, up to [order]. *)
Lemma renumbered_cell h a idx l s :
  h !! l = Some s ->
  exists s', renumbered h a idx !! l = Some s'
             /\ forall f, f <> order_ -> read_field f s' = read_field f s.
Proof.
  revert h idx s. induction a as [|l0 a IH]; intros h idx s Hs; simpl; [eauto|].
  destruct (h !! l0) as [s0|] eqn:Hs0; [|eauto].
  destruct (decide (l = l0)) as [->|Hne].
  - destruct (IH (<[l0 := with_order s0 (Z.of_nat idx + 1)]> h) (S idx)
                (with_order s0 (Z.of_nat idx + 1))) as (s' & Hs' & Hf).
    { apply list_lookup_insert_eq. by eapply lookup_lt_Some. }
    exists s'. split; [done|]. intros f Hfo. rewrite (Hf f Hfo).
    assert (s0 = s) as -> by congruence. by apply with_order_fields.
  - apply IH. by rewrite list_lookup_insert_ne.
Qed.

(** X14: A deletion writes in place, and only the [order] field of the sections
    that remain: every object keeps its other fields, the objects outside
    the remaining list (the deleted one among them) are untouched, and no
    object is created. *)
Theorem deleteSection_writes_order_only c et h index l s :
  editedTemplate c = Some et ->
  tpl_is_custom et = true ->
  well_formed h et ->
  tpl_sections et !! index = Some l ->
  h !! l = Some s ->
  truthy_bool (sec_required s) = false ->
  exists w',
    run (deleteSection c index) c h = (Val tt, w')
    /\ length (heap w') = length h
    /\ heap w' !! l = Some s
    /\ (forall l0 x, h !! l0 = Some x ->
        exists x', heap w' !! l0 = Some x'
                   /\ (forall f, f <> order_ -> read_field f x' = read_field f x)
                   /\ (l0 ∉ delete index (tpl_sections et) -> x' = x))
    /\ templates (st w') = templates c
    /\ activeTemplate (st w') = activeTemplate c.
Proof.
  intros He Hc [Hnd Hv] Hl Hs Hr. unfold run.
  rewrite (deleteSection_removed c et index l s (mkWorld c h []) He Hc Hl Hs Hr Hv). simpl.
  eexists. split; [reflexivity|]. simpl.
  split; [apply renumbered_length|].
  assert (l ∉ delete index (tpl_sections et)) as Hnot.
  { intros Hin. apply list_elem_of_lookup in Hin as (j & Hj).
    destruct (decide (j < index)%nat).
    - rewrite list_lookup_delete_lt in Hj by done.
      pose proof (NoDup_lookup _ _ _ _ Hnd Hj Hl). lia.
    - rewrite list_lookup_delete_ge in Hj by lia.
      pose proof (NoDup_lookup _ _ _ _ Hnd Hj Hl). lia. }
  split; [by rewrite renumbered_other|].
  split; [|done].
  intros l0 x Hx.
  destruct (renumbered_cell h (delete index (tpl_sections et)) 0 l0 x Hx) as (x' & Hx' & Hf).
  exists x'. split; [done|]. split; [done|].
  intros Hout. rewrite renumbered_other in Hx' by done. congruence.
Qed.

Lemma deleteSection_writes_order_only_witness :
  exists w',
    run (deleteSection state_42 1) state_42 sample_heap = (Val tt, w')
    /\ length (heap w') = 4%nat
    /\ heap w' !! 3%nat = Some section_5.
Proof.
  destruct (deleteSection_writes_order_only state_42 buffer_42 sample_heap 1 3 section_5
              eq_refl eq_refl) as (w' & Hrun & Hlen & Hl & _);
    [|reflexivity|reflexivity|reflexivity|].
  - split.
    + apply (bool_decide_unpack _). vm_compute. reflexivity.
    + apply Forall_forall. intros l0 Hl0. apply list_elem_of_In in Hl0. simpl in Hl0.
      destruct Hl0 as [<-|[<-|[]]]; simpl; lia.
  - exists w'. split; [exact Hrun|]. split; [exact Hlen|exact Hl].
Defined.

(** ** Shared objects *)

(** X15: After a duplication the active template and the edit buffer are one
    template with the same section objects.  A deletion in the buffer then
    renumbers, in place, objects the active template still lists: the
    active template keeps all its references, and the ones the buffer kept
    now read 1..N-1.  The template that was duplicated is not reached. *)
Theorem duplicate_then_delete c h et ss index s :
  duplicate_rendered c = true ->
  editedTemplate c = Some et ->
  read_all h (tpl_sections et) = Some ss ->
  ss !! index = Some s ->
  truthy_bool (sec_required s) = false ->
  exists w' copy,
    then_run (run (onDuplicateClick c) c h) (fun c' => deleteSection c' index) = (Val tt, w')
    /\ activeTemplate (st w') = Some copy
    /\ length (tpl_sections copy) = length (tpl_sections et)
    /\ editedTemplate (st w')
       = Some (with_sections copy (delete index (tpl_sections copy)))
    /\ (fun l => heap w' !! l ≫= sec_order) <$> delete index (tpl_sections copy)
       = one_to (length (tpl_sections et) - 1)
    /\ (forall l, l ∈ delete index (tpl_sections copy) -> l ∈ tpl_sections copy)
    /\ sections_of (heap w') et = sections_of h et.
Proof.
  intros _ He Hss Hs Hr. unfold run.
  rewrite (onDuplicateClick_run c et (mkWorld c h []) ss He Hss).
  cbn [then_run st heap log].
  pose proof (read_all_length _ _ _ Hss) as Hlen.
  assert (index < length ss)%nat as Hi by (by eapply lookup_lt_Some).
  set (copy := mkTemplate (Some "new_template") ("Copie de " +:+ tpl_name et)
                 (tpl_description et) (seq (length h) (length ss)) (tpl_is_default et) true).
  assert (well_formed (h ++ ss) copy) as [Hnd Hv].
  { rewrite <- (app_nil_r (h ++ ss)), <- app_assoc. by apply well_formed_block. }
  match goal with |- context [deleteSection ?c' index ?w] =>
    rewrite (deleteSection_removed c' copy index (length h + index) s w) end;
    try reflexivity; try done.
  2:{ simpl. apply lookup_seq_lt. done. }
  2:{ simpl. rewrite lookup_app_r by lia.
      replace (length h + index - length h)%nat with index by lia. done. }
  eexists _, copy. split; [reflexivity|]. simpl.
  split; [reflexivity|]. split; [by rewrite length_seq|]. split; [reflexivity|].
  split.
  { rewrite renumbered_order.
    - rewrite one_to_seq. f_equal. rewrite length_delete, length_seq.
      + lia.
      + apply lookup_lt_is_Some_2. by rewrite length_seq.
    - eapply sublist_NoDup; [exact Hnd|]. apply sublist_delete.
    - by apply Forall_delete. }
  split.
  { intros l Hl. eapply list_subseteq_delete. exact Hl. }
  unfold sections_of. apply Forall_fmap_ext.
  apply read_all_valid in Hss. eapply Forall_impl; [exact Hss|].
  intros l Hl. simpl in *. rewrite renumbered_other.
  - by rewrite lookup_app_l.
  - intros Hin. apply list_subseteq_delete in Hin. apply elem_of_seq in Hin. lia.
Qed.

(** X16: The deep copy made when a template is selected protects the list: no
    deletion in the buffer that follows changes what a template that
    existed before reads, the selected one included. *)
Theorem select_then_delete c h template ss index w' :
  read_all h (tpl_sections template) = Some ss ->
  then_run (run (handleTemplateChange template) c h) (fun c' => deleteSection c' index)
  = (Val tt, w') ->
  activeTemplate (st w') = Some template
  /\ templates (st w') = templates c
  /\ forall t, Forall (fun l => l < length h)%nat (tpl_sections t) ->
               sections_of (heap w') t = sections_of h t.
Proof.
  intros Hss. unfold run.
  rewrite (handleTemplateChange_run template (mkWorld c h []) ss Hss).
  cbn [then_run st heap log].
  set (copy := with_sections template (seq (length h) (length ss))).
  assert (well_formed (h ++ ss) copy) as [Hnd Hv].
  { rewrite <- (app_nil_r (h ++ ss)), <- app_assoc. by apply well_formed_block. }
  assert (forall t, Forall (fun l => l < length h)%nat (tpl_sections t) ->
                    sections_of (h ++ ss) t = sections_of h t) as Happ.
  { intros t Ht. unfold sections_of. apply Forall_fmap_ext.
    eapply Forall_impl; [exact Ht|]. intros l Hl. simpl in *. by rewrite lookup_app_l. }
  destruct (tpl_is_custom template) eqn:Hc.
  2:{ rewrite deleteSection_ignored.
      - intros [= <-]. simpl. split; [reflexivity|]. split; [reflexivity|]. exact Happ.
      - right. exists copy. by split. }
  destruct (tpl_sections copy !! index) as [l|] eqn:Hl.
  2:{ unfold deleteSection. cbn [editedTemplate upd_EditedTemplate]. cbv zeta.
      change (tpl_is_custom copy) with (tpl_is_custom template). rewrite Hc, Hl.
      simpl. done. }
  assert (l < length (h ++ ss))%nat as Hlt.
  { rewrite Forall_forall in Hv. apply Hv. by eapply list_elem_of_lookup_2. }
  destruct (lookup_lt_is_Some_2 _ _ Hlt) as [s Hs].
  destruct (truthy_bool (sec_required s)) eqn:Hr.
  - match goal with |- context [deleteSection ?c' index ?w] =>
      rewrite (deleteSection_rejected c' copy index l s w) end; try done.
    intros [= <-]. simpl. split; [reflexivity|]. split; [reflexivity|]. exact Happ.
  - match goal with |- context [deleteSection ?c' index ?w] =>
      rewrite (deleteSection_removed c' copy index l s w) end; try done.
    intros [= <-]. simpl. split; [reflexivity|]. split; [reflexivity|].
    intros t Ht. rewrite <- (Happ t Ht). unfold sections_of. apply Forall_fmap_ext.
    eapply Forall_impl; [exact Ht|]. intros l0 Hl0. simpl in *.
    rewrite renumbered_other; [done|].
    intros Hin. apply list_subseteq_delete in Hin. apply elem_of_seq in Hin. lia.
Qed.

Lemma select_then_delete_witness :
  activeTemplate
    (st (then_run (run (handleTemplateChange custom_42) state_7 sample_heap)
           (fun c' => deleteSection c' 1)).2) = Some custom_42
  /\ sections_of
       (heap (then_run (run (handleTemplateChange custom_42) state_7 sample_heap)
                (fun c' => deleteSection c' 1)).2) default_7
     = sections_of sample_heap default_7.
Proof.
  destruct (select_then_delete state_7 sample_heap custom_42 [section_required; section_5] 1
              (then_run (run (handleTemplateChange custom_42) state_7 sample_heap)
                 (fun c' => deleteSection c' 1)).2 eq_refl eq_refl) as (Ha & _ & Hs).
  split; [exact Ha|]. apply Hs.
  apply Forall_forall. intros l0 Hl0. apply list_elem_of_In in Hl0. simpl in Hl0.
  destruct Hl0 as [<-|[<-|[]]]; simpl; lia.
Defined.

Lemma duplicate_then_delete_witness :
  exists w' copy,
    then_run (run (onDuplicateClick state_9) state_9 heap_9) (fun c' => deleteSection c' 0)
    = (Val tt, w')
    /\ activeTemplate (st w') = Some copy
    /\ sections_of heap_9 default_9 = [Some section_5; Some section_7]
    /\ orders (heap w') copy = [Some 5%Z; Some 1%Z].
Proof.
  destruct (duplicate_then_delete state_9 heap_9 (with_sections default_9 [2; 3]%nat)
              [section_5; section_7] 0 section_5 eq_refl eq_refl eq_refl eq_refl eq_refl)
    as (w' & copy & Hrun & Ha & _).
  exists w', copy. split; [exact Hrun|]. split; [exact Ha|]. split; [reflexivity|].
  vm_compute in Hrun. injection Hrun as <-. vm_compute in Ha. injection Ha as <-.
  reflexivity.
Defined.

(** ** Adding sections *)

(** X17: Two additions in a row append two distinct new objects with orders N+1
    and N+2; their ids, made from the clock, are equal exactly when the two
    clock values are. *)
Theorem addSection_twice c h et now1 now2 :
  editedTemplate c = Some et ->
  tpl_is_custom et = true ->
  exists w' l1 l2 s1 s2,
    then_run (run (addSection c now1) c h) (fun c' => addSection c' now2) = (Val tt, w')
    /\ editedTemplate (st w') = Some (with_sections et (tpl_sections et ++ [l1; l2]))
    /\ l1 <> l2
    /\ heap w' !! l1 = Some s1
    /\ heap w' !! l2 = Some s2
    /\ sec_id s1 = Some ("section_" +:+ pretty now1)
    /\ (sec_id s1 = sec_id s2 <-> now1 = now2)
    /\ sec_order s1 = Some (Z.of_nat (length (tpl_sections et)) + 1)%Z
    /\ sec_order s2 = Some (Z.of_nat (length (tpl_sections et)) + 2)%Z
    /\ sec_required s1 = Some false /\ sec_required s2 = Some false.
Proof.
  intros He Hc. unfold run.
  rewrite (addSection_run c et now1 (mkWorld c h []) He Hc).
  cbn [then_run st heap log].
  match goal with |- context [addSection ?c' now2 ?w] =>
    rewrite (addSection_run c' (with_sections et (tpl_sections et ++ [length h])) now2 w)
  end; [|reflexivity|exact Hc].
  eexists _, (length h), (S (length h)), _, _. split; [reflexivity|]. simpl.
  split.
  { unfold with_sections. simpl. rewrite <- app_assoc, length_app. simpl.
    by rewrite Nat.add_1_r. }
  split; [lia|]. split.
  { rewrite lookup_app_l by (rewrite length_app; simpl; lia).
    rewrite lookup_app_r by lia. by rewrite Nat.sub_diag. }
  split.
  { rewrite lookup_app_r by (rewrite length_app; simpl; lia).
    rewrite length_app. simpl.
    replace (S (length h) - (length h + 1))%nat with 0%nat by lia. reflexivity. }
  split; [reflexivity|]. split.
  { simpl. split.
    - intros [= H]. cbn [String.append] in H. exact (pretty_N_inj _ _ H).
    - by intros ->. }
  split; [reflexivity|]. split; [|done].
  simpl. f_equal. rewrite length_app. simpl. lia.
Qed.

Lemma addSection_twice_witness :
  exists w' l1 l2 s1 s2,
    then_run (run (addSection state_42 1730000000000) state_42 sample_heap)
      (fun c' => addSection c' 1730000000000) = (Val tt, w')
    /\ l1 <> l2
    /\ heap w' !! l1 = Some s1
    /\ heap w' !! l2 = Some s2
    /\ sec_id s1 = sec_id s2.
Proof.
  destruct (addSection_twice state_42 sample_heap buffer_42 1730000000000 1730000000000
              eq_refl eq_refl)
    as (w' & l1 & l2 & s1 & s2 & Hrun & _ & Hne & H1 & H2 & _ & Hid & _).
  exists w', l1, l2, s1, s2. split; [exact Hrun|]. split; [exact Hne|].
  split; [exact H1|]. split; [exact H2|]. by apply Hid.
Defined.

(** X18: Adding a section and deleting it at once gives back the section list,
    with the same objects; the deletion has renumbered them 1..N, whatever
    their order values were. *)
Theorem add_then_delete c h et now :
  editedTemplate c = Some et ->
  tpl_is_custom et = true ->
  well_formed h et ->
  exists w',
    then_run (run (addSection c now) c h)
      (fun c' => deleteSection c' (length (tpl_sections et))) = (Val tt, w')
    /\ editedTemplate (st w') = Some et
    /\ contiguous (heap w') et
    /\ log w' = [Toast "Section ajoutée" "Une nouvelle section a été ajoutée au template."
                   VariantDefault;
                 Toast "Section supprimée" "La section a été supprimée du template."
                   VariantDefault].
Proof.
  intros He Hc [Hnd Hv]. unfold run.
  rewrite (addSection_run c et now (mkWorld c h []) He Hc).
  cbn [then_run st heap log].
  assert (Forall (fun l => l < length (h ++ [mkSection (Some ("section_" +:+ pretty now))
            (Some "Nouvelle section") (Some "Description de la nouvelle section")
            (Some false) (Some true) (Some (Z.of_nat (length (tpl_sections et)) + 1)%Z)
            (Some default_rag_query_template) (Some default_prompt_template)]))%nat
            (tpl_sections et ++ [length h])) as Hv'.
  { rewrite length_app. simpl. apply Forall_app. split.
    - eapply Forall_impl; [exact Hv|]. simpl. intros; lia.
    - apply Forall_singleton. lia. }
  match goal with |- context [deleteSection ?c' ?i ?w] =>
    rewrite (deleteSection_removed c' (with_sections et (tpl_sections et ++ [length h]))
               i (length h) (mkSection (Some ("section_" +:+ pretty now))
                  (Some "Nouvelle section") (Some "Description de la nouvelle section")
                  (Some false) (Some true)
                  (Some (Z.of_nat (length (tpl_sections et)) + 1)%Z)
                  (Some default_rag_query_template) (Some default_prompt_template)) w)
  end; try reflexivity; try done.
  2:{ simpl. rewrite lookup_app_r by lia. by rewrite Nat.sub_diag. }
  2:{ simpl. rewrite lookup_app_r by lia. by rewrite Nat.sub_diag. }
  assert (delete (length (tpl_sections et)) (tpl_sections et ++ [length h])
          = tpl_sections et) as Hdel.
  { clear. induction (tpl_sections et) as [|x xs IH]; simpl; [done|]. by rewrite IH. }
  eexists. split; [reflexivity|]. simpl. rewrite Hdel.
  split; [by destruct et|]. split; [|reflexivity].
  unfold contiguous, orders. rewrite renumbered_order; [apply one_to_seq|done|].
  eapply Forall_impl; [exact Hv|]. simpl. intros l Hl. rewrite length_app. lia.
Qed.

Lemma add_then_delete_witness :
  exists w',
    then_run (run (addSection state_42 1730000000000) state_42 sample_heap)
      (fun c' => deleteSection c' 2) = (Val tt, w')
    /\ editedTemplate (st w') = Some buffer_42
    /\ orders sample_heap buffer_42 = [Some 1%Z; Some 5%Z]
    /\ contiguous (heap w') buffer_42.
Proof.
  destruct (add_then_delete state_42 sample_heap buffer_42 1730000000000 eq_refl eq_refl)
    as (w' & Hrun & He & Hc & _).
  - split.
    + apply (bool_decide_unpack _). vm_compute. reflexivity.
    + apply Forall_forall. intros l0 Hl0. apply list_elem_of_In in Hl0. simpl in Hl0.
      destruct Hl0 as [<-|[<-|[]]]; simpl; lia.
  - exists w'. split; [exact Hrun|]. split; [exact He|]. split; [reflexivity|exact Hc].
Defined.

(** ** What the card lets the user do *)

(** X19: Where the card renders the delete button of a section, the deletion
    removes that section; the toast "Action impossible" and the
    [TypeError] of an index with no section can only come from a call on a
    section without button. *)
Theorem delete_button_deletes c h et index :
  editedTemplate c = Some et ->
  well_formed h et ->
  (delete_button_rendered h et index = true ->
   exists w',
     run (deleteSection c index) c h = (Val tt, w')
     /\ editedTemplate (st w') = Some (with_sections et (delete index (tpl_sections et)))
     /\ S (length (delete index (tpl_sections et))) = length (tpl_sections et)
     /\ log w' = [Toast "Section supprimée" "La section a été supprimée du template."
                    VariantDefault])
  /\ (forall r w',
        run (deleteSection c index) c h = (r, w') ->
        r <> Val tt
        \/ Toast "Action impossible" "Impossible de supprimer une section obligatoire."
             VariantDestructive ∈ log w' ->
        delete_button_rendered h et index = false).
Proof.
  intros He [Hnd Hv]. unfold delete_button_rendered. split.
  - destruct (tpl_sections et !! index) as [l|] eqn:Hl; [|done].
    destruct (h !! l) as [s|] eqn:Hs; [|done].
    intros Hb. apply andb_true_iff in Hb as [Hc Hr]. apply negb_true_iff in Hr.
    unfold run.
    rewrite (deleteSection_removed c et index l s (mkWorld c h []) He Hc Hl Hs Hr Hv).
    eexists. split; [reflexivity|]. simpl. split; [reflexivity|]. split; [|reflexivity].
    rewrite length_delete by eauto. apply lookup_lt_Some in Hl. lia.
  - intros r w' Hrun Hbad.
    destruct (tpl_sections et !! index) as [l|] eqn:Hl; [|done].
    destruct (h !! l) as [s|] eqn:Hs; [|done].
    destruct (tpl_is_custom et) eqn:Hc; [|done].
    destruct (truthy_bool (sec_required s)) eqn:Hr; [done|]. exfalso.
    unfold run in Hrun.
    rewrite (deleteSection_removed c et index l s (mkWorld c h []) He Hc Hl Hs Hr Hv)
      in Hrun.
    injection Hrun as <- <-. destruct Hbad as [Hbad|Hbad]; [done|].
    simpl in Hbad. apply list_elem_of_singleton in Hbad. discriminate.
Qed.

Lemma sample_heap_well_formed : well_formed sample_heap buffer_42.
Proof.
  split.
  - apply (bool_decide_unpack _). vm_compute. reflexivity.
  - apply Forall_forall. intros l0 Hl0. apply list_elem_of_In in Hl0. simpl in Hl0.
    destruct Hl0 as [<-|[<-|[]]]; simpl; lia.
Defined.

Lemma delete_button_deletes_witness :
  delete_button_rendered sample_heap buffer_42 1 = true
  /\ exists w',
      run (deleteSection state_42 1) state_42 sample_heap = (Val tt, w')
      /\ editedTemplate (st w') = Some (with_sections buffer_42 [2%nat]).
Proof.
  split; [reflexivity|].
  destruct (proj1 (delete_button_deletes state_42 sample_heap buffer_42 1 eq_refl
                     sample_heap_well_formed) eq_refl) as (w' & Hrun & He & _).
  exists w'. split; [exact Hrun|exact He].
Defined.

(** X20: On a buffer that is not custom every input is disabled and no button
    that edits is rendered, only the duplication; adding and deleting
    sections do nothing even when called.  The field edit has no such
    guard: called on such a buffer it still replaces the buffer. *)
Theorem readonly_buffer c h et :
  editedTemplate c = Some et ->
  tpl_is_custom et = false ->
  well_formed h et ->
  inputs_disabled et = true
  /\ add_button_rendered et = false
  /\ save_buttons_rendered et = false
  /\ (forall index, delete_button_rendered h et index = false)
  /\ (editor_rendered c = true -> duplicate_rendered c = true)
  /\ (forall now, run (addSection c now) c h = (Val tt, mkWorld c h []))
  /\ (forall index, run (deleteSection c index) c h = (Val tt, mkWorld c h []))
  /\ (forall index l fv,
        tpl_sections et !! index = Some l ->
        exists w',
          run (handleSectionChange c index fv) c h = (Val tt, w')
          /\ editedTemplate (st w') <> Some et).
Proof.
  intros He Hc [Hnd Hv].
  split; [by unfold inputs_disabled; rewrite Hc|].
  split; [done|]. split; [done|]. split.
  { intros index. unfold delete_button_rendered. rewrite Hc.
    destruct (tpl_sections et !! index); [|done]. by destruct (h !! _). }
  split.
  { unfold editor_rendered, duplicate_rendered. rewrite He, Hc.
    intros H. apply andb_true_iff in H as [H _]. apply andb_true_iff in H as [_ H].
    by rewrite H. }
  split.
  { intros now. unfold run, addSection. by rewrite He, Hc. }
  split.
  { intros index. unfold run. apply deleteSection_ignored. right. eauto. }
  intros index l fv Hl.
  assert (l < length h)%nat as Hlt.
  { rewrite Forall_forall in Hv. apply Hv. by eapply list_elem_of_lookup_2. }
  destruct (lookup_lt_is_Some_2 _ _ Hlt) as [s Hs]. unfold run.
  rewrite (handleSectionChange_run c et index l s fv (mkWorld c h []) He Hl Hs).
  eexists. split; [reflexivity|]. simpl. intros [= Heq].
  assert (tpl_sections (with_sections et (<[index := length h]> (tpl_sections et))) !! index
          = Some l) as Hl' by (by rewrite Heq).
  simpl in Hl'. rewrite list_lookup_insert_eq in Hl' by (by eapply lookup_lt_Some).
  injection Hl' as Hl'. lia.
Qed.

Lemma readonly_buffer_witness :
  run (deleteSection state_7 1) state_7 sample_heap = (Val tt, mkWorld state_7 sample_heap [])
  /\ exists w',
      run (handleSectionChange state_7 1 (F_name "Autre")) state_7 sample_heap = (Val tt, w')
      /\ editedTemplate (st w') <> Some buffer_7.
Proof.
  destruct (readonly_buffer state_7 sample_heap buffer_7 eq_refl eq_refl
              sample_heap_well_formed) as (_ & _ & _ & _ & _ & _ & Hdel & Hedit).
  split; [exact (Hdel 1%nat)|]. exact (Hedit 1%nat 3%nat (F_name "Autre") eq_refl).
Defined.


(** ** The proxies and the backend *)


(** X23: The address of the backend is the environment variable when it is set
    and not empty.  The two RAG routes are then the same handler; when it
    is unset or empty they call different hosts, so that a backend present
    at one address only is reached by one of them only. *)
Theorem rag_routes (Json : Type) (env : option string) :
  (forall u fallback, env = Some u -> u <> "" -> API_URL env fallback = u)
  /\ (forall fallback, env = None \/ env = Some "" -> API_URL env fallback = fallback)
  /\ (forall u, env = Some u -> u <> "" ->
      forall body_json axios_post,
        @Rag.POST Json env body_json axios_post = RagService.POST env body_json axios_post)
  /\ (env = None \/ env = Some "" ->
      forall (data d : Json) e,
        let axios_post url (_ : Json) :=
          if String.eqb url "http://127.0.0.1:8050/generate-with-rag"
          then Resolved d else Rejected e in
        Rag.POST env (Resolved data) axios_post = mkNextResponse (Data d) 200
        /\ RagService.POST env (Resolved data) axios_post = error_response
             "Erreur lors de la génération avec RAG" e).
Proof.
  split; [|split; [|split]].
  - intros u fallback -> Hu. unfold API_URL, str_or.
    by destruct (String.eqb_spec u "").
  - intros fallback [->| ->]; reflexivity.
  - intros u -> Hu body_json axios_post. unfold Rag.POST, RagService.POST, API_URL, str_or.
    by destruct (String.eqb_spec u "").
  - intros [->| ->] data d e; split; reflexivity.
Qed.

Lemma rag_routes_witness :
  @Rag.POST string (Some "http://rfp-backend:8050") (Resolved "{}")
    (fun url _ => Resolved url)
  = RagService.POST (Some "http://rfp-backend:8050") (Resolved "{}")
      (fun url _ => Resolved url).
Proof.
  refine (proj1 (proj2 (proj2 (rag_routes string (Some "http://rfp-backend:8050"))))
            "http://rfp-backend:8050" eq_refl _ _ _).
  discriminate.
Defined.

(** ** The accordion trigger *)

Import Accordion.


